(** * CaseWrite webhook ingestion: signature check and normalisation

    A shallow embedding of
      - services/document-service/webhookHandler.js
          (verifySignature, handleEmailWebhook, handleScannerWebhook,
           handleExternalSystemWebhook, processWebhook)
      - src/api/webhookRoutes.js (rawBodyParser, router.post('/:type'))
    together with the Node builtins these functions call
    (crypto.createHmac('sha256', _), crypto.timingSafeEqual, Buffer.from,
    JSON.stringify and property access on JSON-like values). *)

From Stdlib Require Import ZArith Ascii String.
From Stdlib.Strings Require Import Byte.
From stdpp Require Import base list gmap strings pretty.

Local Open Scope Z_scope.

(** ** SHA-256 (FIPS 180-4) and HMAC (RFC 2104)

    crypto.createHmac('sha256', key).update(msg).digest('hex').
    Words are 32-bit integers held in [Z], every addition wrapped. *)

Module SHA256.

Definition wrap32 (x : Z) : Z := x mod 2 ^ 32.
Definition add32 (x y : Z) : Z := wrap32 (x + y).
Definition rotr (n x : Z) : Z :=
  Z.lor (Z.shiftr x n) (wrap32 (Z.shiftl x (32 - n))).
Definition not32 (x : Z) : Z := Z.lxor x (2 ^ 32 - 1).

Definition Ch (x y z : Z) : Z := Z.lxor (Z.land x y) (Z.land (not32 x) z).
Definition Maj (x y z : Z) : Z :=
  Z.lxor (Z.lxor (Z.land x y) (Z.land x z)) (Z.land y z).
Definition bsig0 (x : Z) : Z := Z.lxor (Z.lxor (rotr 2 x) (rotr 13 x)) (rotr 22 x).
Definition bsig1 (x : Z) : Z := Z.lxor (Z.lxor (rotr 6 x) (rotr 11 x)) (rotr 25 x).
Definition ssig0 (x : Z) : Z := Z.lxor (Z.lxor (rotr 7 x) (rotr 18 x)) (Z.shiftr x 3).
Definition ssig1 (x : Z) : Z := Z.lxor (Z.lxor (rotr 17 x) (rotr 19 x)) (Z.shiftr x 10).

(** The round constants are the first 32 bits of the fractional parts of
    the cube roots of the first 64 primes, the initial hash value those of
    the square roots of the first 8; both are computed from that
    description instead of being tabulated. *)
Definition is_prime (p : Z) : bool :=
  forallb (fun d => negb (p mod Z.of_nat d =? 0)) (seq 2 (Z.to_nat p - 2)).

Definition primes64 : list Z :=
  List.filter is_prime (map Z.of_nat (seq 2 310)).

(** Largest [r] below [2 ^ bits] with [r ^ k <= n], most significant bit first. *)
Fixpoint root_bits (k : Z) (bits : nat) (n r : Z) : Z :=
  match bits with
  | O => r
  | S b =>
      let c := r + 2 ^ Z.of_nat b in
      root_bits k b n (if c ^ k <=? n then c else r)
  end.

Definition frac_root32 (k p : Z) : Z :=
  wrap32 (root_bits k 40 (p * 2 ^ (32 * k)) 0).

Definition K : list Z := Eval vm_compute in map (frac_root32 3) primes64.

Record state := State
  { sa : Z; sb : Z; sc : Z; sd : Z; se : Z; sf : Z; sg : Z; sh : Z }.

Definition H0 : state :=
  Eval vm_compute in
    match map (frac_root32 2) (take 8 primes64) with
    | [a; b; c; d; e; f; g; h] => State a b c d e f g h
    | _ => State 0 0 0 0 0 0 0 0
    end.

(** Big-endian bytes of [x], [n] of them. *)
Fixpoint be_bytes (n : nat) (x : Z) : list Z :=
  match n with
  | O => []
  | S m => (Z.shiftr x (8 * Z.of_nat m)) mod 256 :: be_bytes m x
  end.

(** Padding: a 1 bit, zeros up to 56 modulo 64 bytes, the bit length on 8 bytes. *)
Definition pad (msg : list Z) : list Z :=
  let l := Z.of_nat (length msg) in
  msg ++ [128] ++ replicate (Z.to_nat ((55 - l) mod 64)) 0 ++ be_bytes 8 (8 * l).

Fixpoint words (n : nat) (bs : list Z) : list Z :=
  match n with
  | O => []
  | S m =>
      match bs with
      | b3 :: b2 :: b1 :: b0 :: rest =>
          (((b3 * 256 + b2) * 256 + b1) * 256 + b0) :: words m rest
      | _ => []
      end
  end.

Fixpoint blocks (n : nat) (ws : list Z) : list (list Z) :=
  match n with
  | O => []
  | S m =>
      match ws with
      | [] => []
      | _ => take 16 ws :: blocks m (drop 16 ws)
      end
  end.

(** Message schedule, kept most recent word first while it grows. *)
Fixpoint extend (n : nat) (rev_w : list Z) : list Z :=
  match n with
  | O => rev_w
  | S m =>
      let w :=
        add32 (add32 (ssig1 (nth 1 rev_w 0)) (nth 6 rev_w 0))
              (add32 (ssig0 (nth 14 rev_w 0)) (nth 15 rev_w 0)) in
      extend m (w :: rev_w)
  end.

Definition schedule (block : list Z) : list Z := rev (extend 48 (rev block)).

Definition round (s : state) (kw : Z * Z) : state :=
  let t1 :=
    add32 (add32 (add32 (sh s) (bsig1 (se s))) (Ch (se s) (sf s) (sg s)))
          (add32 (fst kw) (snd kw)) in
  let t2 := add32 (bsig0 (sa s)) (Maj (sa s) (sb s) (sc s)) in
  State (add32 t1 t2) (sa s) (sb s) (sc s) (add32 (sd s) t1) (se s) (sf s) (sg s).

Definition compress (hs : state) (block : list Z) : state :=
  let s := fold_left round (combine K (schedule block)) hs in
  State (add32 (sa hs) (sa s)) (add32 (sb hs) (sb s))
        (add32 (sc hs) (sc s)) (add32 (sd hs) (sd s))
        (add32 (se hs) (se s)) (add32 (sf hs) (sf s))
        (add32 (sg hs) (sg s)) (add32 (sh hs) (sh s)).

Definition state_words (s : state) : list Z :=
  [sa s; sb s; sc s; sd s; se s; sf s; sg s; sh s].

Definition hash_words (msg : list Z) : list Z :=
  let p := pad msg in
  let ws := words (length p) p in
  state_words (fold_left compress (blocks (length ws) ws) H0).

(** The 32-byte digest. *)
Definition sha256 (msg : list Z) : list Z :=
  flat_map (be_bytes 4) (hash_words msg).

(** HMAC with block size 64: a key longer than a block is hashed first. *)
Definition hmac (key msg : list Z) : list Z :=
  let k0 := if (64 <? length key)%nat then sha256 key else key in
  let k := k0 ++ replicate (64 - length k0) 0 in
  sha256 (map (Z.lxor 92) k ++ sha256 (map (Z.lxor 54) k ++ msg)).

End SHA256.

(** ** Strings, buffers and hex

    A JavaScript string is modelled by its UTF-8 bytes, which is what
    [hmac.update(str)] and [Buffer.from(str)] read. *)

Definition bytes_of_string (s : string) : list Z :=
  map (fun b => Z.of_N (Byte.to_N b)) (list_byte_of_string s).

Definition hex_digit (n : Z) : ascii :=
  ascii_of_N (Z.to_N (if n <? 10 then 48 + n else 87 + n)).

Definition hex_of_byte (b : Z) (k : string) : string :=
  String (hex_digit (b / 16)) (String (hex_digit (b mod 16)) k).

(** digest('hex'): lowercase, two digits a byte. *)
Definition hex_of_bytes (bs : list Z) : string :=
  fold_right hex_of_byte EmptyString bs.

(** crypto.createHmac('sha256', secret).update(payload).digest('hex') *)
Definition hmac_sha256_hex (secret payload : string) : string :=
  hex_of_bytes (SHA256.hmac (bytes_of_string secret) (bytes_of_string payload)).

Definition sha256_hex (s : string) : string :=
  hex_of_bytes (SHA256.sha256 (bytes_of_string s)).

(** ** Numbers and Number::toString

    A Number is held as the decimal it was read from: the integer [n], or
    [m * 10 ^ e] for a JSON literal with a fraction or an exponent. What
    the program sees is the IEEE 754 double nearest to it, ties to the
    even mantissa, and its text, as [JSON.stringify] and template literals
    write it, has the fewest digits that read back as the same double: in
    full up to 21 integer digits and down to [1e-6], in exponent form
    beyond. *)

(** [m * 10 ^ e] as a fraction [num / den], for [m] not negative. *)
Definition decimal_fraction (m e : Z) : Z * Z :=
  if 0 <=? e then (m * 10 ^ e, 1) else (m, 10 ^ (- e)).

(** [floor (log2 (num / den))] for a positive rational. *)
Definition log2_ratio (num den : Z) : Z :=
  let l := Z.log2 num - Z.log2 den in
  if (if 0 <=? l then den * 2 ^ l <=? num else den <=? num * 2 ^ (- l))
  then l else l - 1.

(** The Number nearest to [num / den], ties to the even mantissa, as a
    mantissa [f] below [2 ^ 53] (or [2 ^ 53] itself after rounding up) and
    the exponent [b] of its last place, not below [-1074]: [f * 2 ^ b]. *)
Definition round_double (num den : Z) : Z * Z :=
  if num =? 0 then (0, 0)
  else
    let b := Z.max (log2_ratio num den - 52) (- 1074) in
    let n' := if 0 <=? b then num else num * 2 ^ (- b) in
    let d' := if 0 <=? b then den * 2 ^ b else den in
    let q := n' / d' in
    let r := n' mod d' in
    if (d' <? 2 * r) || ((d' =? 2 * r) && Z.odd q) then (q + 1, b) else (q, b).

Definition same_double (x y : Z * Z) : bool :=
  let m := Z.min (snd x) (snd y) in
  fst x * 2 ^ (snd x - m) =? fst y * 2 ^ (snd y - m).

Definition double_is_zero (x : Z * Z) : bool := fst x =? 0.

(** From [2 ^ 1024] on, the Number is Infinity. *)
Definition double_is_finite (x : Z * Z) : bool :=
  if 0 <=? snd x then fst x * 2 ^ snd x <? 2 ^ 1024 else true.

(** The Number nearest to [m * 10 ^ e], for [m] not negative. *)
Definition double_of_decimal (m e : Z) : Z * Z :=
  round_double (fst (decimal_fraction m e)) (snd (decimal_fraction m e)).

Definition decimal_length (x : Z) : Z := Z.of_nat (String.length (pretty x)).

(** The [n] with [10 ^ (n - 1) <= num / den < 10 ^ n]. *)
Definition decimal_exponent (num den : Z) : Z :=
  let n0 := decimal_length num - decimal_length den in
  if (if 0 <=? n0 then den * 10 ^ n0 <=? num else den <=? num * 10 ^ (- n0))
  then n0 + 1 else n0.

(** The decimal [s * 10 ^ j] with the fewest significant digits [k] that
    reads back as the Number [num / den], the nearer one when two do and
    the even one when both are as near. [n] is the decimal exponent of
    the Number. *)
Fixpoint shortest_decimal (fuel : nat) (k n num den : Z) : Z * Z :=
  match fuel with
  | O => (num, 0)
  | S fuel' =>
      let j := n - k in
      let s := if 0 <=? j then num / (den * 10 ^ j) else (num * 10 ^ (- j)) / den in
      let v := round_double num den in
      let lo_ok := same_double (double_of_decimal s j) v in
      let hi_ok := same_double (double_of_decimal (s + 1) j) v in
      if lo_ok && hi_ok then
        match (if 0 <=? j
               then 2 * num ?= (2 * s + 1) * 10 ^ j * den
               else 2 * num * 10 ^ (- j) ?= (2 * s + 1) * den) with
        | Lt => (s, j)
        | Gt => (s + 1, j)
        | Eq => if Z.even s then (s, j) else (s + 1, j)
        end
      else if lo_ok then (s, j)
      else if hi_ok then (s + 1, j)
      else shortest_decimal fuel' (k + 1) n num den
  end.

Fixpoint strip_zeros (rev_digits : list ascii) : list ascii :=
  match rev_digits with
  | "0"%char :: rest => strip_zeros rest
  | _ => rev_digits
  end.

Definition zeros (n : Z) : string :=
  string_of_list_ascii (replicate (Z.to_nat n) "0"%char).

(** Number::toString, radix 10, from the significant digits and the
    decimal exponent [n]: the value is [0.digits * 10 ^ n]. *)
Definition format_number (digits : string) (n : Z) : string :=
  let k := Z.of_nat (String.length digits) in
  if (k <=? n) && (n <=? 21) then digits +:+ zeros (n - k)
  else if (0 <? n) && (n <=? 21) then
    string_of_list_ascii (take (Z.to_nat n) (list_ascii_of_string digits))
    +:+ "." +:+ string_of_list_ascii (drop (Z.to_nat n) (list_ascii_of_string digits))
  else if (-6 <? n) && (n <=? 0) then "0." +:+ zeros (- n) +:+ digits
  else
    let mantissa :=
      match digits with
      | String c EmptyString => digits
      | String c rest => String c ("." +:+ rest)
      | EmptyString => digits
      end in
    mantissa +:+ "e" +:+ (if 0 <? n then "+" else "-") +:+ pretty (Z.abs (n - 1)).

(** The text of the Number nearest to [m * 10 ^ e], [m] not negative. *)
Definition Number_toString_abs (m e : Z) : string :=
  let v := double_of_decimal m e in
  if double_is_zero v then "0"
  else if negb (double_is_finite v) then "Infinity"
  else
    let num := if 0 <=? snd v then fst v * 2 ^ snd v else fst v in
    let den := if 0 <=? snd v then 1 else 2 ^ (- snd v) in
    let n := decimal_exponent num den in
    let sj := shortest_decimal 17 1 n num den in
    let all := pretty (fst sj) in
    let digits := string_of_list_ascii (rev (strip_zeros (rev (list_ascii_of_string all)))) in
    format_number digits (Z.of_nat (String.length all) + snd sj).

Definition Decimal_toString (m e : Z) : string :=
  if (m <? 0) && negb (double_is_zero (double_of_decimal (- m) e))
  then "-" +:+ Number_toString_abs (- m) e
  else Number_toString_abs (Z.abs m) e.

Definition Number_toString (n : Z) : string := Decimal_toString n 0.

Definition Decimal_is_finite (m e : Z) : bool :=
  double_is_finite (double_of_decimal (Z.abs m) e).

Definition Decimal_is_zero (m e : Z) : bool :=
  double_is_zero (double_of_decimal (Z.abs m) e).

Definition Number_is_finite (n : Z) : bool := Decimal_is_finite n 0.

(** ** JavaScript values

    What [JSON.parse] can return, and [undefined] for a property that is
    not there. [VNum n] is the Number nearest to the integer [n] and
    [VDec m e] the Number nearest to [m * 10 ^ e], the value of a literal
    with a fraction or an exponent. A string is held as its UTF-8 bytes.
    An object lists its properties in enumeration order, each name once. *)

#[warnings="-register-all"] Inductive value :=
| VUndefined
| VNull
| VBool (b : bool)
| VNum (n : Z)
| VDec (m e : Z)
| VStr (s : string)
| VArr (elements : list value)
| VObj (fields : list (string * value)).

Definition nullish (v : value) : bool :=
  match v with VUndefined | VNull => true | _ => false end.

(** ToBoolean *)
Definition truthy (v : value) : bool :=
  match v with
  | VUndefined | VNull => false
  | VBool b => b
  | VNum n => negb (n =? 0)
  | VDec m e => negb (Decimal_is_zero m e)
  | VStr s => negb (String.eqb s EmptyString)
  | VArr _ | VObj _ => true
  end.

(** [a || b] *)
Definition js_or (a b : value) : value := if truthy a then a else b.

Fixpoint obj_lookup (fields : list (string * value)) (k : string) : option value :=
  match fields with
  | [] => None
  | (k', v) :: rest => if String.eqb k' k then Some v else obj_lookup rest k
  end.

(** A thrown Error object; only its [message] is ever read. *)
Record Error := mkError { message : string }.

Definition squote : string := String (ascii_of_nat 39) EmptyString.

Definition type_name (v : value) : string :=
  match v with VNull => "null" | _ => "undefined" end.

(** V8's TypeError for a property read on [undefined] or [null]. *)
Definition TypeError_read (v : value) (k : string) : Error :=
  mkError ("Cannot read properties of " +:+ type_name v +:+ " (reading "
           +:+ squote +:+ k +:+ squote +:+ ")").

(** [v.k] on a value that is neither [undefined] nor [null], for a name [k]
    that is an identifier (not an array index). The handlers read no
    [length]; that of a string is given in bytes, its length when it is
    ASCII. *)
Definition member (v : value) (k : string) : value :=
  match v with
  | VObj fields => default VUndefined (obj_lookup fields k)
  | VArr l => if String.eqb k "length" then VNum (Z.of_nat (length l)) else VUndefined
  | VStr s => if String.eqb k "length" then VNum (Z.of_nat (String.length s)) else VUndefined
  | _ => VUndefined
  end.

(** [v[0]] on a value that is neither [undefined] nor [null]; on a string,
    its first unit. *)
Definition element0 (v : value) : value :=
  match v with
  | VObj fields => default VUndefined (obj_lookup fields "0")
  | VArr l => default VUndefined (head l)
  | VStr (String c _) => VStr (String c EmptyString)
  | _ => VUndefined
  end.

(** [v.k]: throws on [undefined] and [null]. *)
Definition get (v : value) (k : string) : Error + value :=
  if nullish v then inl (TypeError_read v k) else inr (member v k).

(** [v?.k] and [v?.[0]] *)
Definition opt_get (v : value) (k : string) : value :=
  if nullish v then VUndefined else member v k.

Definition opt_element0 (v : value) : value :=
  if nullish v then VUndefined else element0 v.

(** ** JSON.stringify *)

Definition dquote : string := String (ascii_of_nat 34) EmptyString.
Definition backslash : string := String (ascii_of_nat 92) EmptyString.

(** QuoteJSONString on one code unit. *)
Definition escape_char (c : ascii) : string :=
  let n := Z.of_nat (nat_of_ascii c) in
  if n =? 34 then backslash +:+ dquote
  else if n =? 92 then backslash +:+ backslash
  else if n =? 8 then backslash +:+ "b"
  else if n =? 12 then backslash +:+ "f"
  else if n =? 10 then backslash +:+ "n"
  else if n =? 13 then backslash +:+ "r"
  else if n =? 9 then backslash +:+ "t"
  else if n <? 32 then backslash +:+ "u00" +:+ hex_of_byte n EmptyString
  else String c EmptyString.

Fixpoint escape (s : string) : string :=
  match s with
  | EmptyString => EmptyString
  | String c rest => escape_char c +:+ escape rest
  end.

Definition quote (s : string) : string := dquote +:+ escape s +:+ dquote.

Fixpoint join (sep : string) (l : list string) : string :=
  match l with
  | [] => EmptyString
  | [x] => x
  | x :: rest => x +:+ sep +:+ join sep rest
  end.

(** [None] is JavaScript's [undefined]: the result for [undefined] itself.
    An array holds [null] in place of [undefined]; an object leaves the
    property out; a Number that is not finite is written [null]. *)
Fixpoint JSON_stringify (v : value) : option string :=
  match v with
  | VUndefined => None
  | VNull => Some "null"
  | VBool b => Some (if b then "true" else "false")
  | VNum n => Some (if Number_is_finite n then Number_toString n else "null")
  | VDec m e => Some (if Decimal_is_finite m e then Decimal_toString m e else "null")
  | VStr s => Some (quote s)
  | VArr l =>
      Some ("[" +:+ join "," (map (fun x => default "null" (JSON_stringify x)) l) +:+ "]")
  | VObj fields =>
      Some ("{" +:+ join ","
              (omap (fun p => match JSON_stringify (snd p) with
                              | Some s => Some (quote (fst p) +:+ ":" +:+ s)
                              | None => None
                              end) fields) +:+ "}")
  end.

(** ** Buffers and crypto.timingSafeEqual *)

(** Buffer.from(str): the UTF-8 bytes of the string. *)
Definition Buffer_from (s : string) : list byte := list_byte_of_string s.

(** One pass over both buffers: the differences of all byte pairs are
    or-ed into an accumulator and no pair is skipped. The second component
    counts the pairs read. *)
Fixpoint ct_scan (a b : list byte) (acc : N) (steps : nat) : N * nat :=
  match a, b with
  | x :: a', y :: b' =>
      ct_scan a' b' (N.lor acc (N.lxor (Byte.to_N x) (Byte.to_N y))) (S steps)
  | _, _ => (acc, steps)
  end.

Definition RangeError_length : Error :=
  mkError "Input buffers must have the same byte length".

(** crypto.timingSafeEqual(a, b) with the number of byte pairs it read: a
    RangeError, before any pair is read, when the byte lengths differ. *)
Definition timingSafeEqual_run (a b : list byte) : (Error + bool) * nat :=
  if (length a =? length b)%nat
  then (inr (N.eqb (fst (ct_scan a b 0%N 0%nat)) 0%N),
        snd (ct_scan a b 0%N 0%nat))
  else (inl RangeError_length, 0%nat).

Definition timingSafeEqual (a b : list byte) : Error + bool :=
  fst (timingSafeEqual_run a b).


(** ** Requests, responses and configuration *)

(** The Express request as the handlers read it: [req.headers] (names in
    lower case), [req.params.type], [req.rawBody] as set by
    [rawBodyParser], and [req.body]. *)
Record request := Request
  { headers : gmap string string;
    params_type : string;
    rawBody : string;
    body : value }.

(** What [res.status(code).json(payload)] sends. *)
Record response := Response { status : Z; payload : value }.

(** The object literal [{ error: { message, status } }]. *)
Definition error_body (msg : string) (code : Z) : value :=
  VObj [("error", VObj [("message", VStr msg); ("status", VNum code)])].

Definition error_response (code : Z) (msg : string) : response :=
  Response code (error_body msg code).

(** Modelled from the spec: [config.webhooks], which config.js does not
    define although processWebhook reads [config.webhooks?.[type]?.secret].
    It is the spec's WebhookSecretConfig, a mapping from source type to an
    optional shared-secret string; the mapping itself may be missing. *)
Record webhook_entry := WebhookEntry { secret : option string }.
Record config := Config { webhooks : option (gmap string webhook_entry) }.

(** [config.webhooks?.[webhookType]?.secret] *)
Definition webhookSecret (cfg : config) (webhookType : string) : option string :=
  match webhooks cfg with
  | None => None
  | Some table =>
      match table !! webhookType with
      | None => None
      | Some entry => secret entry
      end
  end.

(** The test [if (webhookSecret && ...)]: a secret counts as configured
    when it is a non-empty string. *)
Definition configured (s : option string) : bool :=
  match s with
  | Some k => negb (String.eqb k EmptyString)
  | None => false
  end.

(** ** verifySignature (webhookHandler.js, lines 16-43) *)

Definition signature_header : string := "x-webhook-signature".

(** The body of the [try] block, with the number of byte pairs its
    comparison read. [hmac.update] throws a TypeError when
    [JSON.stringify(req.body)] is [undefined]. *)
Definition verifySignature_run (req : request) (secret : string)
  : (Error + bool) * nat :=
  match headers req !! signature_header with
  | None => (inr false, 0%nat)
  | Some signature =>
      if String.eqb signature EmptyString then (inr false, 0%nat)
      else
        match JSON_stringify (body req) with
        | None =>
            (inl (mkError "The data argument must be of type string or an instance of Buffer, TypedArray, or DataView. Received undefined"),
             0%nat)
        | Some text =>
            let digest := hmac_sha256_hex secret text in
            timingSafeEqual_run (Buffer_from digest) (Buffer_from signature)
        end
  end.

Definition verifySignature_try (req : request) (secret : string) : Error + bool :=
  fst (verifySignature_run req secret).

(** [catch (error) { return false; }] *)
Definition verifySignature (req : request) (secret : string) : bool :=
  match verifySignature_try req secret with
  | inr b => b
  | inl _ => false
  end.

(** ** The normalised event and the document pipeline *)

(** The [webhookData] object handed to [documentService.processWebhookDocument]. *)
Record webhookData := WebhookData
  { source : value;
    documentUrl : value;
    documentType : value;
    metadata : value }.

(** Handler code runs in a monad of exceptions over the log of events
    handed to the document pipeline. The log survives a throw. *)
Definition M (A : Type) : Type :=
  list webhookData -> (Error + A) * list webhookData.

Definition ret {A} (a : A) : M A := fun log => (inr a, log).
Definition throw {A} (e : Error) : M A := fun log => (inl e, log).
Definition lift {A} (r : Error + A) : M A := fun log => (r, log).

Definition bind {A B} (m : M A) (k : A -> M B) : M B :=
  fun log =>
    match m log with
    | (inr a, log') => k a log'
    | (inl e, log') => (inl e, log')
    end.

(** [try { m } catch (error) { h error }] *)
Definition try_catch {A} (m : M A) (h : Error -> M A) : M A :=
  fun log =>
    match m log with
    | (inr a, log') => (inr a, log')
    | (inl e, log') => h e log'
    end.

(** The effect of [catch (error) { throw new Error(prefix + error.message) }]
    on an outcome. *)
Definition rethrow {A} (prefix : string) (r : Error + A) : Error + A :=
  match r with
  | inr a => inr a
  | inl e => inl (mkError (prefix +:+ message e))
  end.

Notation "'let*' x ':=' m 'in' k" := (bind m (fun x => k))
  (at level 10, x name, m at level 100, k at level 200).

Section Handlers.

(** The outcome of [documentService.processWebhookDocument] on an event:
    a result, or a thrown Error. It fetches and stores the document, so
    the handlers see it as a given. *)
Variable processWebhookDocument : webhookData -> Error + value.

(** [await documentService.processWebhookDocument(webhookData)] *)
Definition call_pipeline (event : webhookData) : M value :=
  fun log => (processWebhookDocument event, log ++ [event]).

(** handleEmailWebhook (lines 50-71): the [webhookData] literal, whose
    property reads run in source order, then the pipeline. *)
Definition emailWebhookData (data : value) : M webhookData :=
  let* a1 := lift (get data "attachments") in
  let* a2 := lift (get data "attachments") in
  let* a3 := lift (get data "attachments") in
  let* sender := lift (get data "sender") in
  let* subject := lift (get data "subject") in
  let* receivedAt := lift (get data "receivedAt") in
  let* emailId := lift (get data "emailId") in
  ret {| source := VStr "email";
         documentUrl := opt_get (opt_element0 a1) "url";
         documentType := opt_get (opt_element0 a2) "contentType";
         metadata :=
           VObj [("filename", opt_get (opt_element0 a3) "filename");
                 ("sender", sender);
                 ("subject", subject);
                 ("receivedAt", receivedAt);
                 ("emailId", emailId)] |}.

Definition handleEmailWebhook (data : value) : M value :=
  try_catch
    (let* event := emailWebhookData data in call_pipeline event)
    (fun error =>
       throw (mkError ("Failed to handle email webhook: " +:+ message error))).

(** handleScannerWebhook (lines 78-99) *)
Definition scannerWebhookData (data : value) : M webhookData :=
  let* url := lift (get data "documentUrl") in
  let* type := lift (get data "documentType") in
  let* filename := lift (get data "filename") in
  let* scannedBy := lift (get data "scannedBy") in
  let* scannedAt := lift (get data "scannedAt") in
  let* deviceId := lift (get data "deviceId") in
  let* resolution := lift (get data "resolution") in
  ret {| source := VStr "scanner";
         documentUrl := url;
         documentType := js_or type (VStr "application/pdf");
         metadata :=
           VObj [("filename", filename);
                 ("scannedBy", scannedBy);
                 ("scannedAt", scannedAt);
                 ("deviceId", deviceId);
                 ("resolution", resolution)] |}.

Definition handleScannerWebhook (data : value) : M value :=
  try_catch
    (let* event := scannerWebhookData data in call_pipeline event)
    (fun error =>
       throw (mkError ("Failed to handle scanner webhook: " +:+ message error))).

(** handleExternalSystemWebhook (lines 106-128) *)
Definition externalWebhookData (data : value) : M webhookData :=
  let* src := lift (get data "source") in
  let* url := lift (get data "documentUrl") in
  let* type := lift (get data "documentType") in
  let* filename := lift (get data "filename") in
  let* externalId := lift (get data "externalId") in
  let* externalSystem := lift (get data "externalSystem") in
  let* createdAt := lift (get data "createdAt") in
  let* createdBy := lift (get data "createdBy") in
  let* additionalData := lift (get data "additionalData") in
  ret {| source := js_or src (VStr "external");
         documentUrl := url;
         documentType := type;
         metadata :=
           VObj [("filename", filename);
                 ("externalId", externalId);
                 ("externalSystem", externalSystem);
                 ("createdAt", createdAt);
                 ("createdBy", createdBy);
                 ("additionalData", additionalData)] |}.

Definition handleExternalSystemWebhook (data : value) : M value :=
  try_catch
    (let* event := externalWebhookData data in call_pipeline event)
    (fun error =>
       throw (mkError ("Failed to handle external system webhook: " +:+ message error))).

(** The [switch (webhookType)] of processWebhook (lines 154-173), with the
    [res.json(result)] that follows it. *)
Definition dispatch (webhookType : string) (data : value) : M response :=
  if String.eqb webhookType "email" then
    let* result := handleEmailWebhook data in ret (Response 200 result)
  else if String.eqb webhookType "scanner" then
    let* result := handleScannerWebhook data in ret (Response 200 result)
  else if String.eqb webhookType "external" then
    let* result := handleExternalSystemWebhook data in ret (Response 200 result)
  else
    ret (error_response 400 ("Unsupported webhook type: " +:+ webhookType)).

(** [webhookSecret && !verifySignature(req, webhookSecret)] (line 142) *)
Definition signature_rejected (cfg : config) (req : request) : bool :=
  match webhookSecret cfg (params_type req) with
  | Some key => configured (Some key) && negb (verifySignature req key)
  | None => false
  end.

(** The [try] block of processWebhook (lines 138-173). *)
Definition processWebhook_try (cfg : config) (req : request) : M response :=
  if signature_rejected cfg req
  then ret (error_response 401 "Invalid webhook signature")
  else dispatch (params_type req) (body req).

(** processWebhook (lines 136-183) *)
Definition processWebhook (cfg : config) (req : request) : M response :=
  try_catch (processWebhook_try cfg req)
    (fun error => ret (error_response 500 (message error))).

(** *** webhookRoutes.js *)

(** rawBodyParser (lines 13-25): the chunks, decoded as UTF-8, are
    appended to [data], which becomes [req.rawBody] at the end. *)
Definition rawBodyParser (chunks : list string) (req : request) : request :=
  {| headers := headers req;
     params_type := params_type req;
     rawBody := fold_left String.append chunks EmptyString;
     body := body req |}.

(** [JSON.parse], a builtin: its result, or the SyntaxError it throws. *)
Variable JSON_parse : string -> Error + value.

Definition with_body (req : request) (b : value) : request :=
  {| headers := headers req;
     params_type := params_type req;
     rawBody := rawBody req;
     body := b |}.

(** The handler of [router.post('/:type', rawBodyParser, ...)] (lines 32-50). *)
Definition post_type (cfg : config) (req : request) : M response :=
  try_catch
    (let* req' :=
       if bool_decide (headers req !! "content-type" = Some "application/json")
       then
         let* parsed := lift (JSON_parse (rawBody req)) in
         ret (with_body req parsed)
       else ret req in
     processWebhook cfg req')
    (fun error => ret (error_response 500 (message error))).

(** The route: the middleware, then the handler. *)
Definition webhook_route (cfg : config) (chunks : list string) (req : request)
  : M response :=
  post_type cfg (rawBodyParser chunks req).

End Handlers.

(** * The document service (services/document-service/service.js)

    The part of the service the webhook handlers reach:
    processWebhookDocument and the methods it calls, uploadDocument,
    parseDocument and processOcr, with the configuration (config.js) the
    constructor reads. *)

(** ** Configuration *)

(** [process.env.NAME || fallback] *)
Definition env_or (env : gmap string string) (name fallback : string) : string :=
  match env !! name with
  | Some v => if String.eqb v EmptyString then fallback else v
  | None => fallback
  end.

(** The fields the constructor sets; [s3Bucket] only when the storage
    type is ['s3']. *)
Record DocumentService := Service
  { uploadDir : string;
    storageType : string;
    s3Bucket : option string }.

(** [new DocumentService()] over [config.storage] of config.js (lines 74-85). *)
Definition DocumentService_new (env : gmap string string) : DocumentService :=
  {| uploadDir := env_or env "UPLOAD_DIR" "./uploads";
     storageType := env_or env "STORAGE_TYPE" "local";
     s3Bucket :=
       if String.eqb (env_or env "STORAGE_TYPE" "local") "s3"
       then Some (env_or env "S3_BUCKET" EmptyString)
       else None |}.

(** config.js exports server, database, integration, ai, auth, storage and
    logging: no [webhooks], whatever the environment. *)
Definition config_js_webhooks (env : gmap string string) : config := Config None.

(** ** The outside world *)

(** What the service asks of the outside. *)
Inductive io_event :=
| AxiosGet (url : value)
| FsMkdir (dir : string)
| FsWriteFile (path : string) (data : option (list byte))
| S3Upload (bucket : option string) (key : string) (data : option (list byte))
    (contentType : value).

(** How the outside answers: the bytes of [response.data] or the rejection
    of [axios.get]; the outcomes of [fs.mkdir], [fs.writeFile] and
    [s3.upload(...).promise()]; [path.join]; the identifier that the n-th
    call of [uuidv4()] returns; the time at the n-th reading of the clock,
    as [Date.now()] and as [new Date().toISOString()]. *)
Record world := World
  { axios_result : value -> Error + list byte;
    mkdir_result : string -> Error + unit;
    writeFile_result : string -> option (list byte) -> Error + unit;
    s3_result : option string -> string -> option (list byte) -> value -> Error + unit;
    path_join : string -> string -> string;
    uuid_at : nat -> string;
    ms_at : nat -> Z;
    iso_at : nat -> string }.

(** Identifiers drawn, clock readings made, requests sent so far. *)
Record run := Run { uuids : nat; reads : nat; io : list io_event }.

Definition IO (A : Type) : Type := run -> (Error + A) * run.

Definition io_ret {A} (a : A) : IO A := fun r => (inr a, r).
Definition io_throw {A} (e : Error) : IO A := fun r => (inl e, r).

Definition io_bind {A B} (m : IO A) (k : A -> IO B) : IO B :=
  fun r =>
    match m r with
    | (inr a, r') => k a r'
    | (inl e, r') => (inl e, r')
    end.

Definition io_try {A} (m : IO A) (h : Error -> IO A) : IO A :=
  fun r =>
    match m r with
    | (inr a, r') => (inr a, r')
    | (inl e, r') => h e r'
    end.

Notation "'let+' x ':=' m 'in' k" := (io_bind m (fun x => k))
  (at level 10, x name, m at level 100, k at level 200).

Definition request_io {A} (ev : io_event) (answer : Error + A) : IO A :=
  fun r => (answer, {| uuids := uuids r; reads := reads r; io := io r ++ [ev] |}).

(** [uuidv4()] *)
Definition uuidv4 (w : world) : IO string :=
  fun r => (inr (uuid_at w (uuids r)),
            {| uuids := S (uuids r); reads := reads r; io := io r |}).

(** [Date.now()] *)
Definition Date_now (w : world) : IO Z :=
  fun r => (inr (ms_at w (reads r)),
            {| uuids := uuids r; reads := S (reads r); io := io r |}).

(** [new Date().toISOString()] *)
Definition Date_toISOString (w : world) : IO string :=
  fun r => (inr (iso_at w (reads r)),
            {| uuids := uuids r; reads := S (reads r); io := io r |}).

(** ** Values in templates and spreads *)

Definition TypeError_primitive : Error :=
  mkError "Cannot convert object to primitive value".

(** ToString, as a template literal and [JSON.parse] apply it. An object
    with a [toString] property of its own has no callable [toString]
    (no value here is a function) and cannot be converted; any other
    object is [[object Object]]. An array joins its elements, [undefined]
    and [null] as the empty string, and fails where an element does. *)
Fixpoint to_String (v : value) : Error + string :=
  match v with
  | VUndefined => inr "undefined"
  | VNull => inr "null"
  | VBool b => inr (if b then "true" else "false")
  | VNum n => inr (Number_toString n)
  | VDec m e => inr (Decimal_toString m e)
  | VStr s => inr s
  | VArr l =>
      match
        (fix each (l : list value) : Error + list string :=
           match l with
           | [] => inr []
           | x :: rest =>
               match (if nullish x then inr EmptyString else to_String x) with
               | inl e => inl e
               | inr s =>
                   match each rest with
                   | inl e => inl e
                   | inr texts => inr (s :: texts)
                   end
               end
           end) l
      with
      | inl e => inl e
      | inr texts => inr (join "," texts)
      end
  | VObj fields =>
      match obj_lookup fields "toString" with
      | Some _ => inl TypeError_primitive
      | None => inr "[object Object]"
      end
  end.

Definition io_lift {A} (r : Error + A) : IO A := fun s => (r, s).

(** The own enumerable properties that [{...v}] copies; a string spreads
    into its units. *)
Definition spread (v : value) : list (string * value) :=
  match v with
  | VObj fields => fields
  | VArr l => imap (fun i x => (pretty i, x)) l
  | VStr s =>
      imap (fun i c => (pretty i, VStr (String c EmptyString)))
        (list_ascii_of_string s)
  | _ => []
  end.

(** A property written after a spread: it takes the place of a copied
    property of the same name, and comes last otherwise. *)
Fixpoint obj_set (fields : list (string * value)) (k : string) (v : value)
  : list (string * value) :=
  match fields with
  | [] => [(k, v)]
  | (k', v') :: rest =>
      if String.eqb k' k then (k', v) :: rest else (k', v') :: obj_set rest k v
  end.

(** [v === 'text'] *)
Definition is_string (v : value) (text : string) : bool :=
  match v with VStr s => String.eqb s text | _ => false end.

(** ** The methods *)

(** The [file] object: multer's, or the one processWebhookDocument builds. *)
Record upload_file := UploadFile
  { originalname : value;
    mimetype : value;
    buffer : option (list byte);
    file_size : Z }.

(** uploadDocument (lines 63-101); [metadata = {}] replaces [undefined]. *)
Definition uploadDocument (w : world) (svc : DocumentService)
    (file : upload_file) (metadata : value) : IO value :=
  io_try
    (let metadata := match metadata with VUndefined => VObj [] | _ => metadata end in
     let+ documentId := uuidv4 w in
     let+ name := io_lift (to_String (originalname file)) in
     let fileName := documentId +:+ "-" +:+ name in
     let+ stored :=
       if String.eqb (storageType svc) "local" then
         let+ made := request_io (FsMkdir (uploadDir svc))
                        (mkdir_result w (uploadDir svc)) in
         request_io
           (FsWriteFile (path_join w (uploadDir svc) fileName) (buffer file))
           (writeFile_result w (path_join w (uploadDir svc) fileName) (buffer file))
       else if String.eqb (storageType svc) "s3" then
         request_io
           (S3Upload (s3Bucket svc) fileName (buffer file) (mimetype file))
           (s3_result w (s3Bucket svc) fileName (buffer file) (mimetype file))
       else io_ret tt in
     let+ createdAt := Date_toISOString w in
     let+ updatedAt := Date_toISOString w in
     io_ret
       (VObj [("id", VStr documentId);
              ("name", originalname file);
              ("type", mimetype file);
              ("size", VNum (file_size file));
              ("createdAt", VStr createdAt);
              ("updatedAt", VStr updatedAt);
              ("status", VStr "active");
              ("metadata",
               VObj (obj_set (spread metadata) "originalName" (originalname file)))]))
    (fun error =>
       io_throw (mkError ("Failed to upload document: " +:+ message error))).

(** parseDocument (lines 127-152); [options = {}] replaces [undefined]. *)
Definition parseDocument (w : world) (documentId options : value) : IO value :=
  io_try
    (let options := match options with VUndefined => VObj [] | _ => options end in
     let+ shown := io_lift (to_String documentId) in
     let+ timestamp := Date_toISOString w in
     io_ret
       (VObj [("documentId", documentId);
              ("parsedData",
               VObj [("title", VStr ("Document Title for " +:+ shown));
                     ("sections",
                      VArr [VObj [("title", VStr "Introduction");
                                  ("content", VStr "Introduction content...")];
                            VObj [("title", VStr "Main Section");
                                  ("content", VStr "Main section content...")];
                            VObj [("title", VStr "Conclusion");
                                  ("content", VStr "Conclusion content...")]]);
                     ("metadata",
                      VObj [("author", VStr "John Doe");
                            ("createdDate", VStr "2025-01-01");
                            ("keywords",
                             VArr [VStr "legal"; VStr "document"; VStr "case"])])]);
              ("options", options);
              ("timestamp", VStr timestamp)]))
    (fun error =>
       io_throw (mkError ("Failed to parse document: " +:+ message error))).

(** A number literal with a fraction: [digits] divided by ten to the [scale]. *)
Record js_decimal := JsDecimal { digits : Z; scale : Z }.

(** The object processOcr returns; [confidence] is the literal 0.92. *)
Record ocr_result := OcrResult
  { ocr_documentId : value;
    ocrText : string;
    confidence : js_decimal;
    ocr_options : value;
    ocr_timestamp : string }.

(** processOcr (lines 348-362) *)
Definition processOcr (w : world) (documentId options : value) : IO ocr_result :=
  io_try
    (let options := match options with VUndefined => VObj [] | _ => options end in
     let+ shown := io_lift (to_String documentId) in
     let+ timestamp := Date_toISOString w in
     io_ret
       {| ocr_documentId := documentId;
          ocrText :=
            "This is the OCR-extracted text from document "
            +:+ shown
            +:+ ". The quality of the extraction depends on the clarity of the original document.";
          confidence := JsDecimal 92 2;
          ocr_options := options;
          ocr_timestamp := timestamp |})
    (fun error =>
       io_throw (mkError ("Failed to process OCR: " +:+ message error))).

(** [processingResult]: what parseDocument or processOcr returned. *)
Inductive processing :=
| ParsedDocument (parsed : value)
| OcrDocument (recognised : ocr_result).

(** The object processWebhookDocument returns. *)
Record webhook_result := WebhookResult
  { success : bool;
    result_documentId : value;
    result_source : value;
    processingResult : processing;
    result_timestamp : string }.

(** processWebhookDocument (lines 421-466) *)
Definition processWebhookDocument (w : world) (svc : DocumentService)
    (webhookData : webhookData) : IO webhook_result :=
  io_try
    (let+ documentBuffer :=
       if truthy (documentUrl webhookData) then
         let+ data := request_io (AxiosGet (documentUrl webhookData))
                        (axios_result w (documentUrl webhookData)) in
         io_ret (Some data)
       else io_ret None in
     let+ name :=
       if truthy (opt_get (metadata webhookData) "filename")
       then io_ret (opt_get (metadata webhookData) "filename")
       else
         let+ shown := io_lift (to_String (source webhookData)) in
         let+ now := Date_now w in
         io_ret (VStr (shown +:+ "-document-" +:+ Number_toString now +:+ ".pdf")) in
     let file :=
       {| originalname := name;
          mimetype := js_or (documentType webhookData) (VStr "application/pdf");
          buffer := documentBuffer;
          file_size :=
            match documentBuffer with
            | Some data => Z.of_nat (length data)
            | None => 0
            end |} in
     let+ uploadResult := uploadDocument w svc file (metadata webhookData) in
     let+ processingResult :=
       if is_string (source webhookData) "email" then
         let+ parsed := parseDocument w (member uploadResult "id")
                          (VObj [("source", VStr "email")]) in
         io_ret (ParsedDocument parsed)
       else if is_string (source webhookData) "scanner" then
         let+ recognised := processOcr w (member uploadResult "id")
                              (VObj [("source", VStr "scanner")]) in
         io_ret (OcrDocument recognised)
       else
         let+ parsed := parseDocument w (member uploadResult "id") VUndefined in
         io_ret (ParsedDocument parsed) in
     let+ timestamp := Date_toISOString w in
     io_ret
       {| success := true;
          result_documentId := member uploadResult "id";
          result_source := source webhookData;
          processingResult := processingResult;
          result_timestamp := timestamp |})
    (fun error =>
       io_throw (mkError ("Failed to process webhook document: " +:+ message error))).

(** The pipeline the handlers see when the service starts from the run
    [r]; [render] is the result as [res.json] receives it. *)
Definition service_pipeline (w : world) (svc : DocumentService)
    (render : webhook_result -> value) (r : run) (event : webhookData)
  : Error + value :=
  match fst (processWebhookDocument w svc event r) with
  | inl e => inl e
  | inr result => inr (render result)
  end.

(** ** Sample requests and configurations *)

Definition with_headers (req : request) (h : gmap string string) : request :=
  {| headers := h;
     params_type := params_type req;
     rawBody := rawBody req;
     body := body req |}.

(** A pipeline that accepts every event, and one that always fails. *)
Definition accepting_pipeline (event : webhookData) : Error + value :=
  inr (VObj [("success", VBool true); ("source", source event)]).

Definition failing_pipeline (event : webhookData) : Error + value :=
  inl (mkError "Failed to process webhook document: connect ECONNREFUSED").

(** [config.webhooks = { email: { secret: 'k' } }] *)
Definition email_secret_config : config :=
  Config (Some {[ "email" := WebhookEntry (Some "k") ]}).

(** config.js as it stands: no [webhooks] at all. *)
Definition no_webhooks_config : config := Config None.

(** The bytes [{"a": 1}], with a space after the colon, and their parse. *)
Definition spaced_raw : string :=
  "{" +:+ dquote +:+ "a" +:+ dquote +:+ ": 1}".

Definition spaced_parsed : value := VObj [("a", VNum 1)].

(** A request signed by the sender over the bytes it sent. *)
Definition spaced_request : request :=
  {| headers :=
       {[ "content-type" := "application/json";
          signature_header := hmac_sha256_hex "k" spaced_raw ]};
     params_type := "email";
     rawBody := spaced_raw;
     body := spaced_parsed |}.

(** A request with no signature header. *)
Definition unsigned_request (webhookType : string) (data : value) : request :=
  {| headers := {[ "content-type" := "application/json" ]};
     params_type := webhookType;
     rawBody := default EmptyString (JSON_stringify data);
     body := data |}.

(** A request whose signature has the right length and the wrong digits. *)
Definition forged_request : request :=
  {| headers :=
       {[ signature_header :=
            "0000000000000000000000000000000000000000000000000000000000000000" ]};
     params_type := "email";
     rawBody := "{}";
     body := VObj [] |}.

(** The email body of the spec's round-trip property. *)
Definition sample_attachment : value :=
  VObj [("url", VStr "http://x/f.pdf");
        ("filename", VStr "f.pdf");
        ("contentType", VStr "application/pdf")].

Definition sample_email_fields : list (string * value) :=
  [("sender", VStr "a@b.com");
   ("subject", VStr "Re: case");
   ("receivedAt", VStr "2025-01-01T00:00:00Z");
   ("emailId", VStr "E1");
   ("attachments", VArr [sample_attachment])].

(** The scanner body of the spec's default-content-type property. *)
Definition sample_scanner_fields : list (string * value) :=
  [("documentUrl", VStr "http://x/s.png");
   ("filename", VStr "s.png");
   ("scannedBy", VStr "u1");
   ("scannedAt", VStr "t");
   ("deviceId", VStr "d1")].

(** ** The outcomes of dispatch

    The three supported types, each with the prefix its handler puts on a
    failure and the literal it builds. *)
Inductive supported : string -> string -> (value -> M webhookData) -> Prop :=
| SupportedEmail :
    supported "email" "Failed to handle email webhook: " emailWebhookData
| SupportedScanner :
    supported "scanner" "Failed to handle scanner webhook: " scannerWebhookData
| SupportedExternal :
    supported "external" "Failed to handle external system webhook: "
      externalWebhookData.

Definition unsupported (webhookType : string) : Prop :=
  webhookType <> "email" /\ webhookType <> "scanner" /\ webhookType <> "external".

(** What [dispatch] can do from a log [log]: refuse the type, fail while
    building the event, fail in the pipeline, or succeed. *)
Inductive dispatch_outcome
    (pipeline : webhookData -> Error + value)
    (webhookType : string) (data : value) (log : list webhookData)
  : (Error + response) * list webhookData -> Prop :=
| DispatchUnsupported :
    unsupported webhookType ->
    dispatch_outcome pipeline webhookType data log
      (inr (error_response 400 ("Unsupported webhook type: " +:+ webhookType)), log)
| DispatchNormalizeFails prefix norm e :
    supported webhookType prefix norm ->
    norm data log = (inl e, log) ->
    nullish data = true ->
    dispatch_outcome pipeline webhookType data log
      (inl (mkError (prefix +:+ message e)), log)
| DispatchPipelineFails prefix norm event e :
    supported webhookType prefix norm ->
    norm data log = (inr event, log) ->
    pipeline event = inl e ->
    dispatch_outcome pipeline webhookType data log
      (inl (mkError (prefix +:+ message e)), log ++ [event])
| DispatchAccepted prefix norm event result :
    supported webhookType prefix norm ->
    norm data log = (inr event, log) ->
    pipeline event = inr result ->
    dispatch_outcome pipeline webhookType data log
      (inr (Response 200 result), log ++ [event]).

(** A request whose sender signs [JSON.stringify] of the body it sends. *)
Definition signed_request (key webhookType : string) (data : value) : request :=
  {| headers :=
       {[ "content-type" := "application/json";
          signature_header :=
            hmac_sha256_hex key (default EmptyString (JSON_stringify data)) ]};
     params_type := webhookType;
     rawBody := default EmptyString (JSON_stringify data);
     body := data |}.

(** A request whose content type carries a charset parameter. *)
Definition charset_request : request :=
  {| headers := {[ "content-type" := "application/json; charset=utf-8" ]};
     params_type := "scanner";
     rawBody := spaced_raw;
     body := VObj sample_scanner_fields |}.

(** [JSON.parse] on the one text the samples send; the samples need no
    other text, and any other is refused here. *)
Definition sample_parse (text : string) : Error + value :=
  if String.eqb text spaced_raw then inr spaced_parsed
  else inl (mkError "Unexpected token").

(** ** The document routes that reach the same methods

    The upload route follows the webhook handler in the source of the
    document service (lines 234-256). *)

(** The request after multer: [req.file], absent when no file came, and
    [req.body]. *)
Record upload_request := UploadRequest
  { file : option upload_file;
    upload_body : value }.

(** [router.post('/upload', upload.single('file'), ...)]. [JSON.parse]
    reads its argument as a string. *)
Definition upload_route (w : world) (svc : DocumentService)
    (JSON_parse : string -> Error + value) (req : upload_request) : IO response :=
  io_try
    (match file req with
     | None => io_ret (error_response 400 "No file uploaded")
     | Some f =>
         let+ text := io_lift (get (upload_body req) "metadata") in
         let+ meta :=
           if truthy text then
             let+ shown := io_lift (to_String text) in
             io_lift (JSON_parse shown)
           else io_ret (VObj []) in
         let+ result := uploadDocument w svc f meta in
         io_ret (Response 201 result)
     end)
    (fun error => io_ret (error_response 500 (message error))).

(** ** Sample worlds *)

(** A world where every request succeeds and the fetched document is the
    three bytes of [pdf]. *)
Definition kind_world : world :=
  {| axios_result := fun _ => inr (Buffer_from "pdf");
     mkdir_result := fun _ => inr tt;
     writeFile_result := fun _ _ => inr tt;
     s3_result := fun _ _ _ _ => inr tt;
     path_join := fun dir name => dir +:+ "/" +:+ name;
     uuid_at := fun n => "id" +:+ pretty n;
     ms_at := fun n => 1700000000000 + Z.of_nat n;
     iso_at := fun n => "2025-01-01T00:00:0" +:+ pretty n +:+ "Z" |}.

(** The same world with the network down. *)
Definition offline_world : world :=
  {| axios_result := fun _ => inl (mkError "connect ECONNREFUSED");
     mkdir_result := mkdir_result kind_world;
     writeFile_result := writeFile_result kind_world;
     s3_result := s3_result kind_world;
     path_join := path_join kind_world;
     uuid_at := uuid_at kind_world;
     ms_at := ms_at kind_world;
     iso_at := iso_at kind_world |}.

Definition fresh_run : run := Run 0 0 [].

(** The event of the spec's email example. *)
Definition sample_email_event : webhookData :=
  {| source := VStr "email";
     documentUrl := VStr "http://x/f.pdf";
     documentType := VStr "application/pdf";
     metadata :=
       VObj [("filename", VStr "f.pdf");
             ("sender", VStr "a@b.com");
             ("subject", VStr "Re: case");
             ("receivedAt", VStr "2025-01-01T00:00:00Z");
             ("emailId", VStr "E1")] |}.

(** An event whose file name is an object with a [toString] property of
    its own, and an event whose source is one and that names no file. *)
Definition unprintable_name_event : webhookData :=
  {| source := VStr "email";
     documentUrl := VStr "http://x/f.pdf";
     documentType := VUndefined;
     metadata := VObj [("filename", VObj [("toString", VNum 1)])] |}.

Definition unprintable_source_event : webhookData :=
  {| source := VObj [("toString", VNum 1)];
     documentUrl := VStr "http://x/f.pdf";
     documentType := VUndefined;
     metadata := VUndefined |}.

(** A request that carries no document: nothing fetched, nothing to write. *)
Definition carries_no_document (ev : io_event) : Prop :=
  match ev with
  | AxiosGet _ => False
  | FsMkdir _ => True
  | FsWriteFile _ data => data = None
  | S3Upload _ _ data _ => data = None
  end.

(** The spec's email event processed in the kind world, with local storage. *)
Definition sample_result : webhook_result :=
  match fst (processWebhookDocument kind_world (DocumentService_new ∅)
               sample_email_event fresh_run) with
  | inr result => result
  | inl _ => WebhookResult false VUndefined VUndefined (ParsedDocument VUndefined)
               EmptyString
  end.

Definition sample_final_run : run :=
  snd (processWebhookDocument kind_world (DocumentService_new ∅)
         sample_email_event fresh_run).

(** The text of the name the file is stored under: that of
    [metadata?.filename], or a name made of the source and the time when
    that is falsy; an Error where ToString fails. *)
Definition stored_name (w : world) (event : webhookData) (r : run) : Error + string :=
  if truthy (opt_get (metadata event) "filename")
  then to_String (opt_get (metadata event) "filename")
  else
    match to_String (source event) with
    | inl e => inl e
    | inr shown =>
        inr (shown +:+ "-document-" +:+ Number_toString (ms_at w (reads r))
             +:+ ".pdf")
    end.

(** An upload whose caller supplies an [originalName] of its own. *)
Definition sample_file : upload_file :=
  UploadFile (VStr "f.pdf") (VStr "application/pdf") (Some (Buffer_from "pdf")) 3.

Definition sample_upload_fields : list (string * value) :=
  [("originalName", VStr "other.pdf"); ("sender", VStr "a@b.com")].

Definition sample_upload : value :=
  match fst (uploadDocument kind_world (DocumentService_new ∅) sample_file
               (VObj sample_upload_fields) fresh_run) with
  | inr result => result
  | inl _ => VUndefined
  end.

Definition sample_upload_run : run :=
  snd (uploadDocument kind_world (DocumentService_new ∅) sample_file
         (VObj sample_upload_fields) fresh_run).

(** An external-system body that declares the source [scanner]. *)
Definition scanner_claiming_fields : list (string * value) :=
  [("source", VStr "scanner"); ("documentUrl", VStr "http://x/d.png")].

(** A rendering of the result for [res.json]: its plain fields. *)
Definition render_summary (result : webhook_result) : value :=
  VObj [("success", VBool (success result));
        ("documentId", result_documentId result);
        ("source", result_source result);
        ("timestamp", VStr (result_timestamp result))].

(** An upload request whose metadata field is not JSON. *)
Definition bad_metadata_request : upload_request :=
  {| file := Some sample_file;
     upload_body := VObj [("metadata", VStr "{")] |}.

(** The event of an email without attachments. *)
Definition bare_email_event : webhookData :=
  {| source := VStr "email";
     documentUrl := VUndefined;
     documentType := VUndefined;
     metadata :=
       VObj [("filename", VUndefined);
             ("sender", VStr "a@b.com");
             ("subject", VUndefined);
             ("receivedAt", VUndefined);
             ("emailId", VStr "E1")] |}.

(** ** The digest alphabet and the status route *)

(** A character that digest('hex') can write: [0-9] or [a-f]. *)
Definition is_lower_hex (c : ascii) : bool :=
  let n := nat_of_ascii c in
  ((48 <=? n)%nat && (n <=? 57)%nat) || ((97 <=? n)%nat && (n <=? 102)%nat).

Fixpoint all_chars (p : ascii -> bool) (s : string) : bool :=
  match s with
  | EmptyString => true
  | String c rest => p c && all_chars p rest
  end.

(** [router.get('/status', ...)] (webhookRoutes.js, lines 57-64); [now] is
    what [new Date().toISOString()] returns. *)
Definition status_route (now : string) : response :=
  Response 200
    (VObj [("status", VStr "operational");
           ("message", VStr "Webhook service is running");
           ("timestamp", VStr now);
           ("supportedWebhooks",
            VArr [VStr "email"; VStr "scanner"; VStr "external"])]).

Definition elements_of (v : value) : list value :=
  match v with VArr l => l | _ => [] end.

(** * Properties *)

(** ** The hash

    Known answers: FIPS 180-4 (one and two blocks), RFC 4231 test case 2,
    and the two leading round constants and hash words. *)
Example sha256_abc :
  sha256_hex "abc"
  = "ba7816bf8f01cfea414140de5dae2223b00361a396177a9cb410ff61f20015ad".
Proof. vm_compute. reflexivity. Qed.

Example sha256_two_blocks :
  sha256_hex "abcdbcdecdefdefgefghfghighijhijkijkljklmklmnlmnomnopnopq"
  = "248d6a61d20638b8e5c026930c3e6039a33ce45964ff2167f6ecedd419db06c1".
Proof. vm_compute. reflexivity. Qed.

Example hmac_rfc4231_case2 :
  hmac_sha256_hex "Jefe" "what do ya want for nothing?"
  = "5bdcc146bf60754e6a042426089575c75a003f089d2739839dec58b964ec3843".
Proof. vm_compute. reflexivity. Qed.

Example round_constants :
  length SHA256.K = 64%nat /\ take 2 SHA256.K = [0x428a2f98; 0x71374491]
  /\ SHA256.sa SHA256.H0 = 0x6a09e667 /\ SHA256.sh SHA256.H0 = 0x5be0cd19.
Proof. repeat split; reflexivity. Qed.


(** ** Numbers

    Known answers of Number::toString: the last integer written exactly,
    the first written with its nearest double, the switch to exponent
    form at [1e21] and below [1e-6], fractions, the largest and the
    smallest double, and what [JSON.stringify] makes of them. *)
Example Number_toString_integers :
  Number_toString 0 = "0"
  /\ Number_toString (-42) = "-42"
  /\ Number_toString (2 ^ 53) = "9007199254740992"
  /\ Number_toString (2 ^ 53 + 1) = "9007199254740992"
  /\ Number_toString (2 ^ 53 + 3) = "9007199254740996"
  /\ Number_toString (10 ^ 20) = "100000000000000000000"
  /\ Number_toString (10 ^ 21) = "1e+21"
  /\ Number_toString (2 ^ 70) = "1.1805916207174113e+21"
  /\ Number_toString (10 ^ 23) = "1e+23"
  /\ Number_toString (- 10 ^ 21 - 1) = "-1e+21".
Proof. vm_compute. repeat split. Qed.

Example Decimal_toString_fractions :
  Decimal_toString 5 (-1) = "0.5"
  /\ Decimal_toString 92 (-2) = "0.92"
  /\ Decimal_toString 1 (-1) = "0.1"
  /\ Decimal_toString 10 (-1) = "1"
  /\ Decimal_toString (-314159265358979) (-14) = "-3.14159265358979"
  /\ Decimal_toString 1 (-6) = "0.000001"
  /\ Decimal_toString 1 (-7) = "1e-7"
  /\ Decimal_toString 15 (-8) = "1.5e-7"
  /\ Decimal_toString 123456789012345678 (-1) = "12345678901234568"
  /\ Decimal_toString 1 21 = "1e+21"
  /\ Decimal_toString 12 20 = "1.2e+21"
  /\ Decimal_toString 1 (-400) = "0"
  /\ Decimal_toString (-1) (-400) = "0"
  /\ Decimal_toString 1 400 = "Infinity".
Proof. vm_compute. repeat split. Qed.

Example Decimal_toString_extremes :
  Decimal_toString 17976931348623157 292 = "1.7976931348623157e+308"
  /\ Decimal_toString 5 (-324) = "5e-324"
  /\ Decimal_toString 3 (-324) = "5e-324"
  /\ Decimal_toString 2 (-324) = "0"
  /\ Decimal_toString 22250738585072014 (-324) = "2.2250738585072014e-308".
Proof. vm_compute. repeat split. Qed.

Example JSON_stringify_numbers :
  JSON_stringify (VObj [("n", VNum (10 ^ 21))])
  = Some ("{" +:+ dquote +:+ "n" +:+ dquote +:+ ":1e+21}")
  /\ JSON_stringify (VArr [VDec 5 (-1); VDec 1 400; VDec (-1) (-400); VNum 7])
     = Some "[0.5,null,0,7]"
  /\ truthy (VDec 1 (-400)) = false
  /\ truthy (VDec 5 (-1)) = true.
Proof. vm_compute. repeat split. Qed.

(** A body with the Number [1e21]: the signature the verifier accepts is
    the one over [{"n":1e+21}], and the one over the digits written in
    full is refused. *)
Example verifySignature_large_number :
  verifySignature
    {| headers :=
         {[ signature_header :=
              "f2e23a01e2428e8730ab294dd2d3cabad8ab5c62c54613f1d8b7a941a3f9d2d4" ]};
       params_type := "email";
       rawBody := "{" +:+ dquote +:+ "n" +:+ dquote +:+ ":1e21}";
       body := VObj [("n", VNum (10 ^ 21))] |} "k" = true
  /\ verifySignature
       {| headers :=
            {[ signature_header :=
                 "f0e5bbf818d00814f7def9fd9cdd0bcd71ed00e850d3ba89b9ac84d1e42e59c4" ]};
          params_type := "email";
          rawBody := "{" +:+ dquote +:+ "n" +:+ dquote +:+ ":1e21}";
          body := VObj [("n", VNum (10 ^ 21))] |} "k" = false.
Proof. vm_compute. repeat split. Qed.

(** ** The comparison *)

Lemma to_N_inj (x y : byte) : Byte.to_N x = Byte.to_N y -> x = y.
Proof.
  intros E. pose proof (Byte.of_to_N x) as Hx. rewrite E, Byte.of_to_N in Hx.
  congruence.
Qed.

Lemma Buffer_from_inj (s1 s2 : string) : Buffer_from s1 = Buffer_from s2 -> s1 = s2.
Proof.
  unfold Buffer_from. intros E.
  rewrite <- (string_of_list_byte_of_string s1), E.
  apply string_of_list_byte_of_string.
Qed.



(** The accumulator ends at zero exactly when it started at zero and no
    pair differed. *)
Lemma ct_scan_zero (a : list byte) :
  forall b acc n,
    length a = length b ->
    fst (ct_scan a b acc n) = 0%N <-> acc = 0%N /\ a = b.
Proof.
  induction a as [|x a IH]; intros [|y b] acc n Hlen; simpl in *;
    try discriminate.
  - tauto.
  - rewrite IH by lia. rewrite N.lor_eq_0_iff, N.lxor_eq_0_iff. split.
    + intros [[-> E] ->]. apply to_N_inj in E. now subst.
    + intros [-> [= -> ->]]. auto.
Qed.

Lemma timingSafeEqual_length_mismatch (a b : list byte) :
  length a <> length b -> timingSafeEqual a b = inl RangeError_length.
Proof.
  intros H. unfold timingSafeEqual, timingSafeEqual_run.
  destruct (Nat.eqb_spec (length a) (length b)); [contradiction | reflexivity].
Qed.

Lemma timingSafeEqual_same_length (a b : list byte) :
  length a = length b ->
  exists r, timingSafeEqual a b = inr r /\ (r = true <-> a = b).
Proof.
  intros H. unfold timingSafeEqual, timingSafeEqual_run.
  rewrite H, Nat.eqb_refl. cbn [fst].
  eexists. split; [reflexivity|].
  rewrite N.eqb_eq, (ct_scan_zero a b 0%N 0%nat H). tauto.
Qed.



Lemma timingSafeEqual_true_iff (a b : list byte) :
  timingSafeEqual a b = inr true <-> a = b.
Proof.
  destruct (decide (length a = length b)) as [H|H].
  - destruct (timingSafeEqual_same_length a b H) as (r & -> & Hr).
    rewrite <- Hr. split; congruence.
  - rewrite timingSafeEqual_length_mismatch by assumption. split; [discriminate|].
    intros ->. contradiction.
Qed.

(** ** The digest *)

Lemma hex_of_bytes_length (bs : list Z) :
  String.length (hex_of_bytes bs) = (2 * length bs)%nat.
Proof. induction bs as [|b bs IH]; simpl; [reflexivity | rewrite IH; lia]. Qed.

Lemma sha256_length (msg : list Z) : length (SHA256.sha256 msg) = 32%nat.
Proof. reflexivity. Qed.

(** digest('hex') of HMAC-SHA256 is 64 characters long. *)
Lemma hmac_sha256_hex_length (key text : string) :
  String.length (hmac_sha256_hex key text) = 64%nat.
Proof.
  unfold hmac_sha256_hex, SHA256.hmac.
  now rewrite hex_of_bytes_length, sha256_length.
Qed.

Lemma hmac_sha256_hex_nonempty (key text : string) :
  hmac_sha256_hex key text <> EmptyString.
Proof.
  intros E. pose proof (hmac_sha256_hex_length key text) as H.
  rewrite E in H. discriminate.
Qed.

(** ** verifySignature *)

Lemma verifySignature_no_header (req : request) (key : string) :
  headers req !! signature_header = None -> verifySignature req key = false.
Proof.
  intros H. unfold verifySignature, verifySignature_try, verifySignature_run.
  now rewrite H.
Qed.

(** Past the two early returns, the run of verifySignature is the run of
    its comparison. *)
Lemma verifySignature_run_compare (req : request) (key signature text : string) :
  headers req !! signature_header = Some signature ->
  signature <> EmptyString ->
  JSON_stringify (body req) = Some text ->
  verifySignature_run req key
  = timingSafeEqual_run (Buffer_from (hmac_sha256_hex key text))
      (Buffer_from signature).
Proof.
  intros Hsig Hne Htext. unfold verifySignature_run. rewrite Hsig, Htext.
  apply String.eqb_neq in Hne. now rewrite Hne.
Qed.

(** With a signature and a serialisable body, the outcome is the comparison
    of the signature with the digest of [JSON.stringify(req.body)]. *)
Lemma verifySignature_decides (req : request) (key signature text : string) :
  headers req !! signature_header = Some signature ->
  JSON_stringify (body req) = Some text ->
  verifySignature req key = bool_decide (signature = hmac_sha256_hex key text).
Proof.
  intros Hsig Htext. unfold verifySignature, verifySignature_try.
  destruct (String.eqb_spec signature EmptyString) as [->|Hne].
  - unfold verifySignature_run. rewrite Hsig. cbn [String.eqb fst].
    symmetry. apply bool_decide_eq_false. intros E. symmetry in E.
    now apply hmac_sha256_hex_nonempty in E.
  - rewrite (verifySignature_run_compare req key signature text Hsig Hne Htext).
    change (fst (timingSafeEqual_run ?a ?b)) with (timingSafeEqual a b).
    destruct (timingSafeEqual (Buffer_from (hmac_sha256_hex key text))
                (Buffer_from signature)) as [e|[|]] eqn:E.
    + symmetry. apply bool_decide_eq_false. intros ->.
      rewrite (proj2 (timingSafeEqual_true_iff _ _) eq_refl) in E.
      discriminate.
    + apply timingSafeEqual_true_iff, Buffer_from_inj in E.
      symmetry. now apply bool_decide_eq_true.
    + symmetry. apply bool_decide_eq_false. intros ->.
      rewrite (proj2 (timingSafeEqual_true_iff _ _) eq_refl) in E.
      discriminate.
Qed.

(** C1, signature acceptance over the raw body: the code does not have it.
    The sender signs the bytes [{"a": 1}] it puts on the wire;
    verifySignature hashes [JSON.stringify(req.body)], which is [{"a":1}],
    so the declared signature, although it is hex(HMAC-SHA256(S, B)), is
    refused and the handler answers 401 without calling the pipeline. *)
Theorem verifySignature_refuses_raw_body_signature :
  headers spaced_request !! signature_header
  = Some (hmac_sha256_hex "k" (rawBody spaced_request))
  /\ JSON_stringify (body spaced_request)
     = Some ("{" +:+ dquote +:+ "a" +:+ dquote +:+ ":1}")
  /\ verifySignature spaced_request "k" = false
  /\ processWebhook accepting_pipeline email_secret_config spaced_request []
     = (inr (error_response 401 "Invalid webhook signature"), []).
Proof. repeat split; vm_compute; reflexivity. Qed.

(** [req.rawBody] plays no part in the verdict. *)
Lemma verifySignature_ignores_rawBody (req : request) (raw : string) (key : string) :
  verifySignature
    {| headers := headers req; params_type := params_type req;
       rawBody := raw; body := body req |} key
  = verifySignature req key.
Proof. reflexivity. Qed.

(** What the code does accept is a signature over the re-serialised body. *)
Lemma verifySignature_accepts_stringified (req : request) (key text : string) :
  JSON_stringify (body req) = Some text ->
  headers req !! signature_header = Some (hmac_sha256_hex key text) ->
  verifySignature req key = true.
Proof.
  intros Htext Hsig. rewrite (verifySignature_decides _ _ _ _ Hsig Htext).
  now apply bool_decide_eq_true.
Qed.

(** rawBodyParser stores the concatenated chunks and leaves the rest of
    the request, hence the verdict, as it was. *)
Lemma rawBodyParser_rawBody (chunks : list string) (req : request) :
  rawBody (rawBodyParser chunks req) = fold_left String.append chunks EmptyString
  /\ body (rawBodyParser chunks req) = body req
  /\ forall key, verifySignature (rawBodyParser chunks req) key
                 = verifySignature req key.
Proof. repeat split. Qed.

(** With a signature over the raw body, the verdict is whether the digests
    of the raw body and of the re-serialised body happen to coincide. *)
Lemma verifySignature_raw_signature (req : request) (key text : string) :
  headers req !! signature_header = Some (hmac_sha256_hex key (rawBody req)) ->
  JSON_stringify (body req) = Some text ->
  verifySignature req key
  = bool_decide (hmac_sha256_hex key (rawBody req) = hmac_sha256_hex key text).
Proof. intros Hsig Htext. now apply verifySignature_decides. Qed.

(** The same at the route, whenever [JSON.parse] reads the bytes as the
    object they denote. *)
Lemma post_type_refuses_raw_body_signature
    (JSON_parse : string -> Error + value) (initial : value) :
  JSON_parse spaced_raw = inr spaced_parsed ->
  post_type accepting_pipeline JSON_parse email_secret_config
    (with_body spaced_request initial) []
  = (inr (error_response 401 "Invalid webhook signature"), []).
Proof.
  intros Hparse. unfold post_type, try_catch, bind, lift, ret. simpl.
  rewrite Hparse. vm_compute. reflexivity.
Qed.



(** ** processWebhook *)

(** C3: a request without the x-webhook-signature header fails
    verification under every secret; when a secret is configured for its
    type, processWebhook answers 401 and hands nothing to the pipeline. *)
Theorem missing_signature_rejected
    (pipeline : webhookData -> Error + value) (cfg : config) (req : request)
    (key : string) (log : list webhookData) :
  headers req !! signature_header = None ->
  webhookSecret cfg (params_type req) = Some key ->
  configured (Some key) = true ->
  (forall k, verifySignature req k = false)
  /\ processWebhook pipeline cfg req log
     = (inr (error_response 401 "Invalid webhook signature"), log).
Proof.
  intros Hnone Hkey Hconf. split.
  - intros k. now apply verifySignature_no_header.
  - unfold processWebhook, try_catch, processWebhook_try, signature_rejected.
    rewrite Hkey, Hconf, (verifySignature_no_header req key Hnone).
    reflexivity.
Qed.

Lemma missing_signature_rejected_witness :
  (forall k, verifySignature (unsigned_request "email" spaced_parsed) k = false)
  /\ processWebhook accepting_pipeline email_secret_config
       (unsigned_request "email" spaced_parsed) []
     = (inr (error_response 401 "Invalid webhook signature"), []).
Proof.
  exact (missing_signature_rejected accepting_pipeline email_secret_config
           (unsigned_request "email" spaced_parsed) "k" []
           eq_refl eq_refl eq_refl).
Defined.

(** ** The handlers *)

Section HandlerFacts.

Variable pipeline : webhookData -> Error + value.

(** A handler is its literal followed by one pipeline call, with every
    failure rewrapped under the handler's prefix. *)
Lemma handler_run (norm : M webhookData) (prefix : string) (log : list webhookData) :
  try_catch (let* event := norm in call_pipeline pipeline event)
    (fun error => throw (mkError (prefix +:+ message error))) log
  = match norm log with
    | (inr event, log') => (rethrow prefix (pipeline event), log' ++ [event])
    | (inl e, log') => (inl (mkError (prefix +:+ message e)), log')
    end.
Proof.
  unfold try_catch, bind, call_pipeline, throw, rethrow.
  destruct (norm log) as [[e|event] log']; [reflexivity|].
  destruct (pipeline event); reflexivity.
Qed.

(** The literals only fail on [undefined] and [null], at their first
    property read, and never touch the log. *)
Lemma emailWebhookData_nullish (data : value) (log : list webhookData) :
  nullish data = true ->
  emailWebhookData data log = (inl (TypeError_read data "attachments"), log).
Proof. destruct data; try discriminate; reflexivity. Qed.

Lemma scannerWebhookData_nullish (data : value) (log : list webhookData) :
  nullish data = true ->
  scannerWebhookData data log = (inl (TypeError_read data "documentUrl"), log).
Proof. destruct data; try discriminate; reflexivity. Qed.

Lemma externalWebhookData_nullish (data : value) (log : list webhookData) :
  nullish data = true ->
  externalWebhookData data log = (inl (TypeError_read data "source"), log).
Proof. destruct data; try discriminate; reflexivity. Qed.

Lemma emailWebhookData_total (data : value) (log : list webhookData) :
  nullish data = false ->
  exists event, emailWebhookData data log = (inr event, log).
Proof. destruct data; try discriminate; intros _; eexists; reflexivity. Qed.

Lemma scannerWebhookData_total (data : value) (log : list webhookData) :
  nullish data = false ->
  exists event, scannerWebhookData data log = (inr event, log).
Proof. destruct data; try discriminate; intros _; eexists; reflexivity. Qed.

Lemma externalWebhookData_total (data : value) (log : list webhookData) :
  nullish data = false ->
  exists event, externalWebhookData data log = (inr event, log).
Proof. destruct data; try discriminate; intros _; eexists; reflexivity. Qed.

End HandlerFacts.

(** ** dispatch *)

Section DispatchFacts.

Variable pipeline : webhookData -> Error + value.

Lemma dispatch_supported
    (webhookType prefix : string) (norm : value -> M webhookData)
    (data : value) (log : list webhookData) :
  supported webhookType prefix norm ->
  dispatch pipeline webhookType data log
  = match norm data log with
    | (inr event, log') =>
        (match pipeline event with
         | inr result => inr (Response 200 result)
         | inl e => inl (mkError (prefix +:+ message e))
         end, log' ++ [event])
    | (inl e, log') => (inl (mkError (prefix +:+ message e)), log')
    end.
Proof.
  intros Hs. destruct Hs; unfold dispatch; simpl;
    unfold handleEmailWebhook, handleScannerWebhook, handleExternalSystemWebhook;
    unfold bind at 1; rewrite handler_run;
    match goal with |- context [?n data log] => destruct (n data log) as [[e|event] log'] end;
    try reflexivity;
    destruct (pipeline event); reflexivity.
Qed.

Lemma dispatch_unsupported (webhookType : string) (data : value) (log : list webhookData) :
  unsupported webhookType ->
  dispatch pipeline webhookType data log
  = (inr (error_response 400 ("Unsupported webhook type: " +:+ webhookType)), log).
Proof.
  intros (He & Hs & Hx). unfold dispatch.
  apply String.eqb_neq in He, Hs, Hx. rewrite He, Hs, Hx. reflexivity.
Qed.

Lemma supported_or_not (webhookType : string) :
  unsupported webhookType \/ exists prefix norm, supported webhookType prefix norm.
Proof.
  destruct (decide (webhookType = "email")) as [->|He];
    [right; eauto using supported|].
  destruct (decide (webhookType = "scanner")) as [->|Hs];
    [right; eauto using supported|].
  destruct (decide (webhookType = "external")) as [->|Hx];
    [right; eauto using supported|].
  left. repeat split; assumption.
Qed.

Lemma supported_norm (webhookType prefix : string) (norm : value -> M webhookData)
    (data : value) (log : list webhookData) :
  supported webhookType prefix norm ->
  (nullish data = true /\ exists e, norm data log = (inl e, log))
  \/ (nullish data = false /\ exists event, norm data log = (inr event, log)).
Proof.
  intros Hs. destruct (nullish data) eqn:Hn; [left | right]; split; trivial;
    destruct Hs;
    eauto using emailWebhookData_nullish, scannerWebhookData_nullish,
      externalWebhookData_nullish, emailWebhookData_total,
      scannerWebhookData_total, externalWebhookData_total.
Qed.

(** Every run of [dispatch] is one of the four outcomes. *)
Lemma dispatch_cases (webhookType : string) (data : value) (log : list webhookData) :
  dispatch_outcome pipeline webhookType data log
    (dispatch pipeline webhookType data log).
Proof.
  destruct (supported_or_not webhookType) as [Hu|(prefix & norm & Hs)].
  - rewrite dispatch_unsupported by assumption. now constructor.
  - rewrite (dispatch_supported _ _ _ _ _ Hs).
    destruct (supported_norm _ _ _ data log Hs)
      as [(Hn & e & He)|(Hn & event & He)]; rewrite He.
    + eapply DispatchNormalizeFails; eassumption.
    + destruct (pipeline event) as [e|result] eqn:Hp.
      * eapply DispatchPipelineFails; eassumption.
      * eapply DispatchAccepted; eassumption.
Qed.

End DispatchFacts.

(** ** The signature gate and the type switch *)

(** C4: when no secret is configured for the request's type, the
    signature check is skipped and counts as passed. Whatever the headers
    hold, signature or none, processWebhook goes on to dispatch, and its
    answer is never the 401 rejection. *)
Theorem unconfigured_secret_skips_verification
    (pipeline : webhookData -> Error + value) (cfg : config) (req : request)
    (log : list webhookData) :
  configured (webhookSecret cfg (params_type req)) = false ->
  signature_rejected cfg req = false
  /\ (forall h, signature_rejected cfg (with_headers req h) = false)
  /\ (forall h, processWebhook pipeline cfg (with_headers req h) log
                = processWebhook pipeline cfg req log)
  /\ processWebhook pipeline cfg req log
     = try_catch (dispatch pipeline (params_type req) (body req))
         (fun error => ret (error_response 500 (message error))) log
  /\ (forall resp log',
        processWebhook pipeline cfg req log = (inr resp, log') ->
        status resp = 200 \/ status resp = 400 \/ status resp = 500).
Proof.
  intros Hconf.
  assert (Hgate : forall h, signature_rejected cfg (with_headers req h) = false).
  { intros h. unfold signature_rejected, with_headers. cbn [params_type].
    destruct (webhookSecret cfg (params_type req)) as [key|]; [|reflexivity].
    now rewrite Hconf. }
  assert (Hreq : signature_rejected cfg req = false).
  { unfold signature_rejected.
    destruct (webhookSecret cfg (params_type req)) as [key|]; [|reflexivity].
    now rewrite Hconf. }
  assert (Hrun : processWebhook pipeline cfg req log
                 = try_catch (dispatch pipeline (params_type req) (body req))
                     (fun error => ret (error_response 500 (message error))) log).
  { unfold processWebhook, try_catch, processWebhook_try. now rewrite Hreq. }
  repeat split; trivial.
  - intros h. rewrite Hrun. unfold processWebhook, try_catch, processWebhook_try.
    now rewrite Hgate.
  - intros resp log'. rewrite Hrun. unfold try_catch.
    pose proof (dispatch_cases pipeline (params_type req) (body req) log) as Hd.
    destruct Hd; unfold ret; intros [= <- <-]; simpl; auto.
Qed.

Lemma unconfigured_secret_skips_verification_witness :
  signature_rejected no_webhooks_config forged_request = false
  /\ (forall h, signature_rejected no_webhooks_config (with_headers forged_request h) = false)
  /\ (forall h, processWebhook accepting_pipeline no_webhooks_config
                  (with_headers forged_request h) []
                = processWebhook accepting_pipeline no_webhooks_config forged_request [])
  /\ processWebhook accepting_pipeline no_webhooks_config forged_request []
     = try_catch (dispatch accepting_pipeline (params_type forged_request)
                    (body forged_request))
         (fun error => ret (error_response 500 (message error))) []
  /\ (forall resp log',
        processWebhook accepting_pipeline no_webhooks_config forged_request []
        = (inr resp, log') ->
        status resp = 200 \/ status resp = 400 \/ status resp = 500).
Proof.
  exact (unconfigured_secret_skips_verification accepting_pipeline
           no_webhooks_config forged_request [] eq_refl).
Defined.

Lemma fax_unsupported : unsupported "fax".
Proof. repeat split; discriminate. Qed.

(** C5: dispatch is by exact match of the type against email, scanner
    and external. For every other type the switch (lines 154-171) answers
    400 with [Unsupported webhook type: <type>] and leaves the log of
    events handed to the pipeline as it was: no handler runs, no event is
    built, the pipeline is not called and no processing branch is taken.
    The handler gives this answer to every request that reaches the
    switch, that is, that passed the signature gate standing before it;
    with config.js as it is, that is every request. In no case does the
    handler hand anything to the pipeline for such a type. *)
Theorem unsupported_type_rejected
    (pipeline : webhookData -> Error + value) (cfg : config) (req : request)
    (log : list webhookData) :
  unsupported (params_type req) ->
  dispatch pipeline (params_type req) (body req) log
  = (inr (error_response 400
            ("Unsupported webhook type: " +:+ params_type req)), log)
  /\ (signature_rejected cfg req = false ->
      processWebhook pipeline cfg req log
      = (inr (error_response 400
                ("Unsupported webhook type: " +:+ params_type req)), log))
  /\ (forall env,
        processWebhook pipeline (config_js_webhooks env) req log
        = (inr (error_response 400
                  ("Unsupported webhook type: " +:+ params_type req)), log))
  /\ snd (processWebhook pipeline cfg req log) = log.
Proof.
  intros Hu. split; [now apply dispatch_unsupported|].
  assert (Hpass : forall c, signature_rejected c req = false ->
            processWebhook pipeline c req log
            = (inr (error_response 400
                      ("Unsupported webhook type: " +:+ params_type req)), log)).
  { intros c Hc. unfold processWebhook, try_catch, processWebhook_try.
    rewrite Hc. now rewrite dispatch_unsupported. }
  split; [apply Hpass|]. split; [intros env; now apply Hpass|].
  unfold processWebhook, try_catch, processWebhook_try.
  destruct (signature_rejected cfg req); [reflexivity|].
  now rewrite dispatch_unsupported.
Qed.

Lemma unsupported_type_rejected_witness :
  dispatch accepting_pipeline "fax" spaced_parsed []
  = (inr (error_response 400 "Unsupported webhook type: fax"), [])
  /\ (signature_rejected email_secret_config (unsigned_request "fax" spaced_parsed)
      = false ->
      processWebhook accepting_pipeline email_secret_config
        (unsigned_request "fax" spaced_parsed) []
      = (inr (error_response 400 "Unsupported webhook type: fax"), []))
  /\ (forall env,
        processWebhook accepting_pipeline (config_js_webhooks env)
          (unsigned_request "fax" spaced_parsed) []
        = (inr (error_response 400 "Unsupported webhook type: fax"), []))
  /\ snd (processWebhook accepting_pipeline email_secret_config
            (unsigned_request "fax" spaced_parsed) []) = [].
Proof.
  exact (unsupported_type_rejected accepting_pipeline email_secret_config
           (unsigned_request "fax" spaced_parsed) [] fax_unsupported).
Defined.

(** ** Normalisation *)

Lemma member_obj (fields : list (string * value)) (k : string) (v : value) :
  obj_lookup fields k = Some v -> member (VObj fields) k = v.
Proof. intros H. simpl. now rewrite H. Qed.

Lemma member_obj_absent (fields : list (string * value)) (k : string) :
  obj_lookup fields k = None -> member (VObj fields) k = VUndefined.
Proof. intros H. simpl. now rewrite H. Qed.

(** On an object the email literal is built without failure. *)
Lemma emailWebhookData_obj (fields : list (string * value)) (log : list webhookData) :
  emailWebhookData (VObj fields) log
  = (inr {| source := VStr "email";
            documentUrl :=
              opt_get (opt_element0 (member (VObj fields) "attachments")) "url";
            documentType :=
              opt_get (opt_element0 (member (VObj fields) "attachments")) "contentType";
            metadata :=
              VObj [("filename",
                     opt_get (opt_element0 (member (VObj fields) "attachments")) "filename");
                    ("sender", member (VObj fields) "sender");
                    ("subject", member (VObj fields) "subject");
                    ("receivedAt", member (VObj fields) "receivedAt");
                    ("emailId", member (VObj fields) "emailId")] |}, log).
Proof. reflexivity. Qed.

Lemma scannerWebhookData_obj (fields : list (string * value)) (log : list webhookData) :
  scannerWebhookData (VObj fields) log
  = (inr {| source := VStr "scanner";
            documentUrl := member (VObj fields) "documentUrl";
            documentType :=
              js_or (member (VObj fields) "documentType") (VStr "application/pdf");
            metadata :=
              VObj [("filename", member (VObj fields) "filename");
                    ("scannedBy", member (VObj fields) "scannedBy");
                    ("scannedAt", member (VObj fields) "scannedAt");
                    ("deviceId", member (VObj fields) "deviceId");
                    ("resolution", member (VObj fields) "resolution")] |}, log).
Proof. reflexivity. Qed.

Lemma externalWebhookData_obj (fields : list (string * value)) (log : list webhookData) :
  externalWebhookData (VObj fields) log
  = (inr {| source := js_or (member (VObj fields) "source") (VStr "external");
            documentUrl := member (VObj fields) "documentUrl";
            documentType := member (VObj fields) "documentType";
            metadata :=
              VObj [("filename", member (VObj fields) "filename");
                    ("externalId", member (VObj fields) "externalId");
                    ("externalSystem", member (VObj fields) "externalSystem");
                    ("createdAt", member (VObj fields) "createdAt");
                    ("createdBy", member (VObj fields) "createdBy");
                    ("additionalData", member (VObj fields) "additionalData")] |}, log).
Proof. reflexivity. Qed.

(** C6: an email body with sender, subject, receivedAt, emailId and a
    non-empty attachments array is normalised to one event, handed once to
    the pipeline: documentUrl, documentType and metadata.filename are the
    url, contentType and filename of the first attachment, and metadata
    carries the body's sender, subject, receivedAt and emailId. The
    handler's outcome is the pipeline's. *)
Theorem handleEmailWebhook_normalizes
    (pipeline : webhookData -> Error + value)
    (fields : list (string * value))
    (sender subject receivedAt emailId first : value) (others : list value)
    (log : list webhookData) :
  obj_lookup fields "sender" = Some sender ->
  obj_lookup fields "subject" = Some subject ->
  obj_lookup fields "receivedAt" = Some receivedAt ->
  obj_lookup fields "emailId" = Some emailId ->
  obj_lookup fields "attachments" = Some (VArr (first :: others)) ->
  handleEmailWebhook pipeline (VObj fields) log
  = (rethrow "Failed to handle email webhook: "
       (pipeline
          {| source := VStr "email";
             documentUrl := opt_get first "url";
             documentType := opt_get first "contentType";
             metadata :=
               VObj [("filename", opt_get first "filename");
                     ("sender", sender);
                     ("subject", subject);
                     ("receivedAt", receivedAt);
                     ("emailId", emailId)] |}),
     log ++ [ {| source := VStr "email";
                 documentUrl := opt_get first "url";
                 documentType := opt_get first "contentType";
                 metadata :=
                   VObj [("filename", opt_get first "filename");
                         ("sender", sender);
                         ("subject", subject);
                         ("receivedAt", receivedAt);
                         ("emailId", emailId)] |} ]).
Proof.
  intros Hsender Hsubject Hreceived Hid Hatt.
  unfold handleEmailWebhook. rewrite handler_run, emailWebhookData_obj.
  rewrite (member_obj _ _ _ Hsender), (member_obj _ _ _ Hsubject),
    (member_obj _ _ _ Hreceived), (member_obj _ _ _ Hid),
    (member_obj _ _ _ Hatt).
  reflexivity.
Qed.

Lemma handleEmailWebhook_normalizes_witness :
  handleEmailWebhook accepting_pipeline (VObj sample_email_fields) []
  = (inr (VObj [("success", VBool true); ("source", VStr "email")]),
     [ {| source := VStr "email";
          documentUrl := VStr "http://x/f.pdf";
          documentType := VStr "application/pdf";
          metadata :=
            VObj [("filename", VStr "f.pdf");
                  ("sender", VStr "a@b.com");
                  ("subject", VStr "Re: case");
                  ("receivedAt", VStr "2025-01-01T00:00:00Z");
                  ("emailId", VStr "E1")] |} ]).
Proof.
  exact (handleEmailWebhook_normalizes accepting_pipeline sample_email_fields
           (VStr "a@b.com") (VStr "Re: case") (VStr "2025-01-01T00:00:00Z")
           (VStr "E1") sample_attachment [] [] eq_refl eq_refl eq_refl eq_refl
           eq_refl).
Defined.

(** C7: an email body whose attachments are absent or an empty array is
    still normalised: one event is handed to the pipeline, with
    documentUrl and documentType both undefined, and the handler fails
    only if the pipeline does. *)
Theorem handleEmailWebhook_without_attachments
    (pipeline : webhookData -> Error + value)
    (fields : list (string * value)) (log : list webhookData) :
  obj_lookup fields "attachments" = None
  \/ obj_lookup fields "attachments" = Some (VArr []) ->
  exists event,
    emailWebhookData (VObj fields) log = (inr event, log)
    /\ handleEmailWebhook pipeline (VObj fields) log
       = (rethrow "Failed to handle email webhook: " (pipeline event),
          log ++ [event])
    /\ source event = VStr "email"
    /\ documentUrl event = VUndefined
    /\ documentType event = VUndefined.
Proof.
  intros Hatt. eexists. split; [apply emailWebhookData_obj|].
  split; [unfold handleEmailWebhook; now rewrite handler_run, emailWebhookData_obj|].
  destruct Hatt as [Hatt|Hatt]; simpl; rewrite Hatt; auto.
Qed.

Lemma handleEmailWebhook_without_attachments_witness :
  exists event,
    emailWebhookData (VObj [("sender", VStr "a@b.com"); ("attachments", VArr [])]) []
    = (inr event, [])
    /\ handleEmailWebhook accepting_pipeline
         (VObj [("sender", VStr "a@b.com"); ("attachments", VArr [])]) []
       = (rethrow "Failed to handle email webhook: " (accepting_pipeline event),
          [] ++ [event])
    /\ source event = VStr "email"
    /\ documentUrl event = VUndefined
    /\ documentType event = VUndefined.
Proof.
  exact (handleEmailWebhook_without_attachments accepting_pipeline
           [("sender", VStr "a@b.com"); ("attachments", VArr [])] []
           (or_intror eq_refl)).
Defined.

(** C8 as stated does not hold: a documentType that is present but falsy,
    here the empty string, is not used unchanged; the default replaces it. *)
Lemma scanner_empty_documentType_replaced :
  obj_lookup [("documentUrl", VStr "http://x/s.png"); ("documentType", VStr "")]
    "documentType" = Some (VStr "")
  /\ map documentType
       (snd (handleScannerWebhook accepting_pipeline
               (VObj [("documentUrl", VStr "http://x/s.png");
                      ("documentType", VStr "")]) []))
     = [VStr "application/pdf"].
Proof. split; reflexivity. Qed.

(** C8, amended: a scanner body is normalised to one event whose
    documentType is the body's documentType when that value is truthy
    (for a string: not empty), used unchanged, and "application/pdf"
    when the field is absent or holds a falsy value. *)
Theorem handleScannerWebhook_documentType
    (pipeline : webhookData -> Error + value)
    (fields : list (string * value)) (log : list webhookData) :
  exists event,
    scannerWebhookData (VObj fields) log = (inr event, log)
    /\ handleScannerWebhook pipeline (VObj fields) log
       = (rethrow "Failed to handle scanner webhook: " (pipeline event),
          log ++ [event])
    /\ (obj_lookup fields "documentType" = None ->
        documentType event = VStr "application/pdf")
    /\ (forall v, obj_lookup fields "documentType" = Some v ->
                  truthy v = true -> documentType event = v)
    /\ (forall v, obj_lookup fields "documentType" = Some v ->
                  truthy v = false -> documentType event = VStr "application/pdf").
Proof.
  eexists. split; [apply scannerWebhookData_obj|].
  split; [unfold handleScannerWebhook; now rewrite handler_run, scannerWebhookData_obj|].
  cbn [documentType]. repeat split.
  - intros H. now rewrite (member_obj_absent _ _ H).
  - intros v H Ht. rewrite (member_obj _ _ _ H). unfold js_or. now rewrite Ht.
  - intros v H Ht. rewrite (member_obj _ _ _ H). unfold js_or. now rewrite Ht.
Qed.

(** The spec's scanner example: no documentType in the body. *)
Example scanner_default_content_type :
  map documentType
    (snd (handleScannerWebhook accepting_pipeline (VObj sample_scanner_fields) []))
  = [VStr "application/pdf"].
Proof. reflexivity. Qed.

(** C9 as stated does not hold: the event's source is not always the
    sub-source the body declares; a declared empty string is replaced by
    "external". *)
Lemma external_empty_source_replaced :
  obj_lookup [("source", VStr ""); ("documentUrl", VStr "http://x/d.pdf")]
    "source" = Some (VStr "")
  /\ map source
       (snd (handleExternalSystemWebhook accepting_pipeline
               (VObj [("source", VStr "");
                      ("documentUrl", VStr "http://x/d.pdf")]) []))
     = [VStr "external"].
Proof. split; reflexivity. Qed.

(** C9, amended: an external-system body is normalised to one event whose
    source is the body's source when that value is truthy (a declared
    non-empty sub-source string is kept as it is) and "external" when the
    field is absent or falsy; whose documentUrl and documentType are the
    body's, with no default for documentType; and whose metadata carries
    filename, externalId, externalSystem, createdAt, createdBy and
    additionalData as the body has them. *)
Theorem handleExternalSystemWebhook_normalizes
    (pipeline : webhookData -> Error + value)
    (fields : list (string * value)) (log : list webhookData) :
  exists event,
    externalWebhookData (VObj fields) log = (inr event, log)
    /\ handleExternalSystemWebhook pipeline (VObj fields) log
       = (rethrow "Failed to handle external system webhook: " (pipeline event),
          log ++ [event])
    /\ (forall s, obj_lookup fields "source" = Some (VStr s) ->
                  s <> EmptyString -> source event = VStr s)
    /\ (forall v, obj_lookup fields "source" = Some v ->
                  truthy v = true -> source event = v)
    /\ (forall v, obj_lookup fields "source" = Some v ->
                  truthy v = false -> source event = VStr "external")
    /\ (obj_lookup fields "source" = None -> source event = VStr "external")
    /\ documentUrl event = default VUndefined (obj_lookup fields "documentUrl")
    /\ documentType event = default VUndefined (obj_lookup fields "documentType")
    /\ metadata event
       = VObj [("filename", default VUndefined (obj_lookup fields "filename"));
               ("externalId", default VUndefined (obj_lookup fields "externalId"));
               ("externalSystem",
                default VUndefined (obj_lookup fields "externalSystem"));
               ("createdAt", default VUndefined (obj_lookup fields "createdAt"));
               ("createdBy", default VUndefined (obj_lookup fields "createdBy"));
               ("additionalData",
                default VUndefined (obj_lookup fields "additionalData"))].
Proof.
  eexists. split; [apply externalWebhookData_obj|].
  split; [unfold handleExternalSystemWebhook;
          now rewrite handler_run, externalWebhookData_obj|].
  cbn [source documentUrl documentType metadata].
  assert (Htruthy : forall v, obj_lookup fields "source" = Some v ->
                              truthy v = true ->
                              js_or (member (VObj fields) "source") (VStr "external") = v).
  { intros v H Ht. rewrite (member_obj _ _ _ H). unfold js_or. now rewrite Ht. }
  repeat split; trivial.
  - intros s H Hne. apply Htruthy; [assumption|]. simpl.
    now destruct (String.eqb_spec s EmptyString).
  - intros v H Ht. rewrite (member_obj _ _ _ H). unfold js_or. now rewrite Ht.
  - intros H. now rewrite (member_obj_absent _ _ H).
Qed.

(** ** The error boundary *)

Lemma app_singleton_inv {A} (l : list A) (x y : A) : l ++ [x] = l ++ [y] -> x = y.
Proof. intros H. apply app_inv_head in H. congruence. Qed.

Lemma app_singleton_neq {A} (l : list A) (x : A) : l ++ [x] <> l.
Proof.
  intros H. apply (f_equal length) in H. rewrite length_app in H. simpl in H. lia.
Qed.

Lemma supported_functional (webhookType p1 p2 : string)
    (n1 n2 : value -> M webhookData) :
  supported webhookType p1 n1 -> supported webhookType p2 n2 -> p1 = p2 /\ n1 = n2.
Proof. intros H1 H2. destruct H1; inversion H2; subst; auto. Qed.

Lemma supported_not_unsupported (webhookType prefix : string)
    (norm : value -> M webhookData) :
  supported webhookType prefix norm -> unsupported webhookType -> False.
Proof. intros Hs (He & Hsc & Hx). destruct Hs; congruence. Qed.

Lemma processWebhook_run
    (pipeline : webhookData -> Error + value) (cfg : config) (req : request)
    (log : list webhookData) :
  processWebhook pipeline cfg req log
  = if signature_rejected cfg req
    then (inr (error_response 401 "Invalid webhook signature"), log)
    else match dispatch pipeline (params_type req) (body req) log with
         | (inr resp, log') => (inr resp, log')
         | (inl e, log') => (inr (error_response 500 (message e)), log')
         end.
Proof.
  unfold processWebhook, try_catch, processWebhook_try.
  destruct (signature_rejected cfg req); reflexivity.
Qed.

(** The boundary of processWebhook. *)
Lemma processWebhook_boundary
    (pipeline : webhookData -> Error + value) (cfg : config) (req : request)
    (log : list webhookData) :
  exists resp log',
    processWebhook pipeline cfg req log = (inr resp, log')
    /\ (log' = log \/ exists event, log' = log ++ [event])
    /\ (forall e, fst (processWebhook_try pipeline cfg req log) = inl e ->
                  resp = error_response 500 (message e))
    /\ (forall event e,
          log' = log ++ [event] -> pipeline event = inl e ->
          exists prefix norm,
            supported (params_type req) prefix norm
            /\ resp = error_response 500 (prefix +:+ message e))
    /\ (forall prefix norm,
          supported (params_type req) prefix norm ->
          signature_rejected cfg req = false ->
          nullish (body req) = true ->
          exists e,
            norm (body req) log = (inl e, log)
            /\ resp = error_response 500 (prefix +:+ message e)
            /\ log' = log).
Proof.
  rewrite processWebhook_run. unfold processWebhook_try.
  destruct (signature_rejected cfg req) eqn:Hgate.
  - do 2 eexists. split; [reflexivity|]. split; [now left|].
    split; [discriminate|]. split.
    + intros event e H. symmetry in H. now apply app_singleton_neq in H.
    + discriminate.
  - pose proof (dispatch_cases pipeline (params_type req) (body req) log) as Hd.
    destruct Hd as [Hu|prefix norm e Hs Hnorm Hnull
                      |prefix norm event e Hs Hnorm Hpipe
                      |prefix norm event result Hs Hnorm Hpipe];
      do 2 eexists; (split; [reflexivity|]); cbn [fst].
    + split; [now left|]. split; [discriminate|]. split.
      * intros event e H. symmetry in H. now apply app_singleton_neq in H.
      * intros p n Hs _ _. destruct (supported_not_unsupported _ _ _ Hs Hu).
    + split; [now left|]. split; [now intros e' [= <-]|]. split.
      * intros event e' H. symmetry in H. now apply app_singleton_neq in H.
      * intros p n Hs' _ _.
        destruct (supported_functional _ _ _ _ _ Hs Hs') as [<- <-]. eauto.
    + split; [right; eauto|]. split; [now intros e' [= <-]|]. split.
      * intros event' e' H Hp. apply app_singleton_inv in H. subst event'.
        rewrite Hpipe in Hp. injection Hp as <-. eauto.
      * intros p n Hs' _ Hnull.
        destruct (supported_functional _ _ _ _ _ Hs Hs') as [<- <-].
        destruct (supported_norm _ _ _ (body req) log Hs)
          as [(_ & e' & He')|(Hn & _)]; congruence.
    + split; [right; eauto|]. split; [discriminate|]. split.
      * intros event' e' H Hp. apply app_singleton_inv in H. subst event'.
        congruence.
      * intros p n Hs' _ Hnull.
        destruct (supported_functional _ _ _ _ _ Hs Hs') as [<- <-].
        destruct (supported_norm _ _ _ (body req) log Hs)
          as [(_ & e' & He')|(Hn & _)]; congruence.
Qed.

(** C10: processWebhook and the route handler always end with a response:
    no Error leaves them. Whatever the [try] block throws becomes a 500
    response of the shape [{ error: { message, status } }]. A failure
    while the event is built (the body is undefined or null) and a failure
    of the pipeline both arrive there, under the handler's prefix. The
    pipeline is called at most once: nothing is retried. At the route, a
    body that [JSON.parse] refuses is answered 500 as well, with no
    pipeline call. *)
Theorem webhook_error_boundary
    (pipeline : webhookData -> Error + value)
    (JSON_parse : string -> Error + value)
    (cfg : config) (req : request) (log : list webhookData) :
  (exists resp log',
     processWebhook pipeline cfg req log = (inr resp, log')
     /\ (log' = log \/ exists event, log' = log ++ [event])
     /\ (forall e, fst (processWebhook_try pipeline cfg req log) = inl e ->
                   resp = error_response 500 (message e))
     /\ (forall event e,
           log' = log ++ [event] -> pipeline event = inl e ->
           exists prefix norm,
             supported (params_type req) prefix norm
             /\ resp = error_response 500 (prefix +:+ message e))
     /\ (forall prefix norm,
           supported (params_type req) prefix norm ->
           signature_rejected cfg req = false ->
           nullish (body req) = true ->
           exists e,
             norm (body req) log = (inl e, log)
             /\ resp = error_response 500 (prefix +:+ message e)
             /\ log' = log))
  /\ (exists resp log',
        post_type pipeline JSON_parse cfg req log = (inr resp, log')
        /\ (log' = log \/ exists event, log' = log ++ [event])
        /\ (forall e,
              headers req !! "content-type" = Some "application/json" ->
              JSON_parse (rawBody req) = inl e ->
              resp = error_response 500 (message e) /\ log' = log)).
Proof.
  split.
  - pose proof (processWebhook_boundary pipeline cfg req log) as H. exact H.
  - unfold post_type, try_catch at 1, bind, lift, ret.
    destruct (bool_decide (headers req !! "content-type" = Some "application/json"))
      eqn:Hjson.
    + destruct (JSON_parse (rawBody req)) as [e|parsed] eqn:Hparse.
      * exists (error_response 500 (message e)), log.
        split; [reflexivity|]. split; [now left|].
        intros e' _ [= <-]. now split.
      * destruct (processWebhook_boundary pipeline cfg (with_body req parsed) log)
          as (resp & log' & Hrun & Hlog & _).
        exists resp, log'. rewrite Hrun. split; [reflexivity|].
        split; [assumption|]. intros e _ [=].
    + destruct (processWebhook_boundary pipeline cfg req log)
        as (resp & log' & Hrun & Hlog & _).
      exists resp, log'. rewrite Hrun. split; [reflexivity|].
      split; [assumption|]. intros e Hct _.
      apply bool_decide_eq_false in Hjson. contradiction.
Qed.

(** A pipeline failure and a null body, end to end. *)
Example pipeline_failure_is_500 :
  processWebhook failing_pipeline no_webhooks_config
    (unsigned_request "scanner" (VObj sample_scanner_fields)) []
  = (inr (error_response 500
            "Failed to handle scanner webhook: Failed to process webhook document: connect ECONNREFUSED"),
     [ {| source := VStr "scanner";
          documentUrl := VStr "http://x/s.png";
          documentType := VStr "application/pdf";
          metadata :=
            VObj [("filename", VStr "s.png");
                  ("scannedBy", VStr "u1");
                  ("scannedAt", VStr "t");
                  ("deviceId", VStr "d1");
                  ("resolution", VUndefined)] |} ]).
Proof. reflexivity. Qed.

Example null_body_is_500 :
  processWebhook accepting_pipeline no_webhooks_config
    (unsigned_request "email" VNull) []
  = (inr (error_response 500
            "Failed to handle email webhook: Cannot read properties of null (reading 'attachments')"),
     []).
Proof. reflexivity. Qed.

(** A body that is not JSON never reaches processWebhook. *)
Lemma webhook_route_malformed
    (pipeline : webhookData -> Error + value)
    (JSON_parse : string -> Error + value)
    (cfg : config) (chunks : list string) (req : request) (e : Error)
    (log : list webhookData) :
  headers req !! "content-type" = Some "application/json" ->
  JSON_parse (fold_left String.append chunks EmptyString) = inl e ->
  webhook_route pipeline JSON_parse cfg chunks req log
  = (inr (error_response 500 (message e)), log).
Proof.
  intros Hct Hparse.
  unfold webhook_route, post_type, try_catch, bind, lift, rawBodyParser.
  cbn [headers rawBody]. rewrite bool_decide_eq_true_2 by assumption.
  now rewrite Hparse.
Qed.

(** * Further properties of the webhook path *)

(** ** The accepted signatures *)

Lemma hex_digit_lower (n : Z) : 0 <= n < 16 -> is_lower_hex (hex_digit n) = true.
Proof.
  intros [Hlo Hhi]. rewrite <- (Z2Nat.id n) by assumption.
  assert (Hk : (Z.to_nat n < 16)%nat) by lia.
  revert Hk. generalize (Z.to_nat n). intros k Hk.
  do 16 (destruct k as [|k]; [reflexivity|]). lia.
Qed.

Lemma hex_of_bytes_lower (bs : list Z) :
  Forall (fun b => 0 <= b < 256) bs ->
  all_chars is_lower_hex (hex_of_bytes bs) = true.
Proof.
  induction 1 as [|b bs Hb _ IH]; [reflexivity|].
  cbn [hex_of_bytes fold_right hex_of_byte all_chars].
  fold (hex_of_bytes bs). rewrite IH.
  rewrite !hex_digit_lower; [reflexivity| |].
  - apply Z.mod_pos_bound. lia.
  - split; [apply Z.div_pos; lia | apply Z.div_lt_upper_bound; lia].
Qed.

Lemma be_bytes_range (n : nat) (x : Z) :
  Forall (fun b => 0 <= b < 256) (SHA256.be_bytes n x).
Proof.
  induction n as [|n IH]; simpl; constructor; [|exact IH].
  apply Z.mod_pos_bound. lia.
Qed.

Lemma sha256_range (msg : list Z) :
  Forall (fun b => 0 <= b < 256) (SHA256.sha256 msg).
Proof.
  unfold SHA256.sha256. generalize (SHA256.hash_words msg). intros ws.
  induction ws as [|x ws IH]; cbn [flat_map]; [constructor|].
  apply Forall_app_2; [apply be_bytes_range | exact IH].
Qed.

Lemma hmac_sha256_hex_lower (key text : string) :
  all_chars is_lower_hex (hmac_sha256_hex key text) = true.
Proof. unfold hmac_sha256_hex, SHA256.hmac. apply hex_of_bytes_lower, sha256_range. Qed.

(** X1: whatever the secret and the body, a signature that verifySignature
    accepts is 64 characters long and made of the digits 0-9 and a-f only:
    an upper-case or prefixed rendering of the right digest is refused. *)
Theorem accepted_signature_format (req : request) (key signature : string) :
  headers req !! signature_header = Some signature ->
  verifySignature req key = true ->
  String.length signature = 64%nat
  /\ all_chars is_lower_hex signature = true.
Proof.
  intros Hsig Hok.
  destruct (JSON_stringify (body req)) as [text|] eqn:Htext.
  - rewrite (verifySignature_decides _ _ _ _ Hsig Htext) in Hok.
    apply bool_decide_eq_true in Hok. subst signature.
    split; [apply hmac_sha256_hex_length | apply hmac_sha256_hex_lower].
  - unfold verifySignature, verifySignature_try, verifySignature_run in Hok.
    rewrite Hsig, Htext in Hok.
    destruct (String.eqb signature EmptyString); discriminate.
Qed.

Lemma accepted_signature_format_witness :
  String.length (hmac_sha256_hex "k" "{}") = 64%nat
  /\ all_chars is_lower_hex (hmac_sha256_hex "k" "{}") = true.
Proof.
  exact (accepted_signature_format (signed_request "k" "email" (VObj [])) "k"
           (hmac_sha256_hex "k" "{}") eq_refl
           ltac:(vm_compute; reflexivity)).
Defined.

(** X2: a request whose signature is the HMAC, under the configured
    secret, of [JSON.stringify(req.body)] passes the gate: processWebhook
    goes on to the switch and answers what dispatch answers, behind the 500
    boundary. *)
Theorem signed_request_passes_gate
    (pipeline : webhookData -> Error + value) (cfg : config) (req : request)
    (key text : string) (log : list webhookData) :
  webhookSecret cfg (params_type req) = Some key ->
  JSON_stringify (body req) = Some text ->
  headers req !! signature_header = Some (hmac_sha256_hex key text) ->
  signature_rejected cfg req = false
  /\ processWebhook pipeline cfg req log
     = try_catch (dispatch pipeline (params_type req) (body req))
         (fun error => ret (error_response 500 (message error))) log.
Proof.
  intros Hkey Htext Hsig.
  assert (Hgate : signature_rejected cfg req = false).
  { unfold signature_rejected. rewrite Hkey.
    rewrite (verifySignature_accepts_stringified req key text Htext Hsig).
    apply andb_false_r. }
  split; [exact Hgate|].
  unfold processWebhook, try_catch, processWebhook_try. now rewrite Hgate.
Qed.

Lemma signed_request_passes_gate_witness :
  signature_rejected email_secret_config
    (signed_request "k" "email" (VObj sample_email_fields)) = false
  /\ processWebhook accepting_pipeline email_secret_config
       (signed_request "k" "email" (VObj sample_email_fields)) []
     = try_catch (dispatch accepting_pipeline "email" (VObj sample_email_fields))
         (fun error => ret (error_response 500 (message error))) [].
Proof.
  exact (signed_request_passes_gate accepting_pipeline email_secret_config
           (signed_request "k" "email" (VObj sample_email_fields)) "k"
           (default EmptyString (JSON_stringify (VObj sample_email_fields))) []
           eq_refl eq_refl eq_refl).
Defined.

(** ** The status of the answer *)

(** X3: processWebhook always answers, and the two rejections are decided
    as follows. The status is 401 exactly when the signature gate rejects
    the request, and 400 exactly when the gate lets it through and the type
    is none of email, scanner, external. Neither rejection hands anything
    to the pipeline. *)
Theorem processWebhook_rejections
    (pipeline : webhookData -> Error + value) (cfg : config) (req : request)
    (log : list webhookData) :
  exists resp log',
    processWebhook pipeline cfg req log = (inr resp, log')
    /\ (status resp = 401 <-> signature_rejected cfg req = true)
    /\ (status resp = 400
        <-> signature_rejected cfg req = false /\ unsupported (params_type req))
    /\ (status resp = 401 \/ status resp = 400 -> log' = log).
Proof.
  rewrite processWebhook_run.
  destruct (signature_rejected cfg req) eqn:Hgate.
  - do 2 eexists. split; [reflexivity|]. cbn [status error_response].
    repeat split; try tauto; try discriminate. intros [? _]. discriminate.
  - pose proof (dispatch_cases pipeline (params_type req) (body req) log) as Hd.
    destruct Hd as [Hu|prefix norm e Hs Hnorm Hnull
                      |prefix norm event e Hs Hnorm Hpipe
                      |prefix norm event result Hs Hnorm Hpipe];
      do 2 eexists; (split; [reflexivity|]); cbn [status error_response];
      (split; [split; discriminate|]).
    + split; [tauto|reflexivity].
    + split; [|reflexivity]. split; [discriminate|].
      intros [_ Hu]. destruct (supported_not_unsupported _ _ _ Hs Hu).
    + split; [|intros [?|?]; discriminate]. split; [discriminate|].
      intros [_ Hu]. destruct (supported_not_unsupported _ _ _ Hs Hu).
    + split; [|intros [?|?]; discriminate]. split; [discriminate|].
      intros [_ Hu]. destruct (supported_not_unsupported _ _ _ Hs Hu).
Qed.

(** X4: the status is 200 exactly when the gate lets the request through,
    its type is supported, the event is built (the body is neither
    undefined nor null) and the pipeline succeeds on it. The answer then
    carries the pipeline's result unchanged, and that event is the only
    one handed over. *)
Theorem processWebhook_success
    (pipeline : webhookData -> Error + value) (cfg : config) (req : request)
    (log : list webhookData) :
  exists resp log',
    processWebhook pipeline cfg req log = (inr resp, log')
    /\ (status resp = 200
        <-> signature_rejected cfg req = false
            /\ exists prefix norm event result,
                 supported (params_type req) prefix norm
                 /\ norm (body req) log = (inr event, log)
                 /\ pipeline event = inr result)
    /\ (status resp = 200 ->
        nullish (body req) = false
        /\ exists event,
             log' = log ++ [event] /\ pipeline event = inr (payload resp)).
Proof.
  rewrite processWebhook_run.
  destruct (signature_rejected cfg req) eqn:Hgate.
  - do 2 eexists. split; [reflexivity|]. cbn [status error_response].
    split; [split; [discriminate | intros [? _]; discriminate] | discriminate].
  - pose proof (dispatch_cases pipeline (params_type req) (body req) log) as Hd.
    destruct Hd as [Hu|prefix norm e Hs Hnorm Hnull
                      |prefix norm event e Hs Hnorm Hpipe
                      |prefix norm event result Hs Hnorm Hpipe];
      do 2 eexists; (split; [reflexivity|]); cbn [status payload error_response].
    + split; [|discriminate]. split; [discriminate|].
      intros (_ & p & n & ev & r & Hs & _).
      destruct (supported_not_unsupported _ _ _ Hs Hu).
    + split; [|discriminate]. split; [discriminate|].
      intros (_ & p & n & ev & r & Hs' & Hn' & _).
      destruct (supported_functional _ _ _ _ _ Hs Hs') as [<- <-]. congruence.
    + split; [|discriminate]. split; [discriminate|].
      intros (_ & p & n & ev & r & Hs' & Hn' & Hp').
      destruct (supported_functional _ _ _ _ _ Hs Hs') as [<- <-]. congruence.
    + split.
      * split; [|reflexivity]. intros _. split; [reflexivity|]. eauto 10.
      * intros _. split; [|eauto].
        destruct (supported_norm _ _ _ (body req) log Hs)
          as [(_ & e' & He')|(Hn & _)]; congruence.
Qed.

(** X5: for a supported type that passed the gate, the pipeline is left
    uncalled exactly when the body is undefined or null; every other body,
    whatever fields it has or lacks, is handed to the pipeline once. No
    field is required. *)
Theorem pipeline_called_unless_nullish
    (pipeline : webhookData -> Error + value) (cfg : config) (req : request)
    (prefix : string) (norm : value -> M webhookData) (log : list webhookData) :
  supported (params_type req) prefix norm ->
  signature_rejected cfg req = false ->
  (snd (processWebhook pipeline cfg req log) = log <-> nullish (body req) = true)
  /\ (nullish (body req) = false ->
      exists event,
        norm (body req) log = (inr event, log)
        /\ snd (processWebhook pipeline cfg req log) = log ++ [event]).
Proof.
  intros Hs Hgate. rewrite processWebhook_run, Hgate.
  rewrite (dispatch_supported pipeline _ _ _ (body req) log Hs).
  destruct (supported_norm _ _ _ (body req) log Hs)
    as [(Hn & e & He)|(Hn & event & He)]; rewrite He, Hn.
  - split; [tauto | discriminate].
  - split.
    + destruct (pipeline event); cbn [snd]; split; try discriminate;
        intros H; now apply app_singleton_neq in H.
    + intros _. exists event. split; [reflexivity|].
      now destruct (pipeline event).
Qed.

Lemma pipeline_called_unless_nullish_witness :
  (snd (processWebhook accepting_pipeline no_webhooks_config
          (unsigned_request "external" (VObj [])) []) = []
   <-> nullish (VObj []) = true)
  /\ (nullish (VObj []) = false ->
      exists event,
        externalWebhookData (VObj []) [] = (inr event, [])
        /\ snd (processWebhook accepting_pipeline no_webhooks_config
                  (unsigned_request "external" (VObj [])) []) = [] ++ [event]).
Proof.
  exact (pipeline_called_unless_nullish accepting_pipeline no_webhooks_config
           (unsigned_request "external" (VObj [])) _ _ []
           SupportedExternal eq_refl).
Defined.

(** ** What reaches the event *)

Ltac same_lookup H k := rewrite (H k) by (simpl; tauto).

(** X6: each event is a function of the fields its handler names and of
    nothing else in the body: two bodies that agree on those fields give
    the same event, so a field the handler does not name never reaches the
    pipeline. *)
Theorem events_depend_on_named_fields
    (f1 f2 : list (string * value)) (log : list webhookData) :
  ((forall k, In k ["attachments"; "sender"; "subject"; "receivedAt"; "emailId"] ->
              obj_lookup f1 k = obj_lookup f2 k) ->
   emailWebhookData (VObj f1) log = emailWebhookData (VObj f2) log)
  /\ ((forall k, In k ["documentUrl"; "documentType"; "filename"; "scannedBy";
                       "scannedAt"; "deviceId"; "resolution"] ->
                 obj_lookup f1 k = obj_lookup f2 k) ->
      scannerWebhookData (VObj f1) log = scannerWebhookData (VObj f2) log)
  /\ ((forall k, In k ["source"; "documentUrl"; "documentType"; "filename";
                       "externalId"; "externalSystem"; "createdAt"; "createdBy";
                       "additionalData"] ->
                 obj_lookup f1 k = obj_lookup f2 k) ->
      externalWebhookData (VObj f1) log = externalWebhookData (VObj f2) log).
Proof.
  split; [|split]; intros H.
  - rewrite !emailWebhookData_obj. unfold member.
    same_lookup H "attachments". same_lookup H "sender". same_lookup H "subject".
    same_lookup H "receivedAt". same_lookup H "emailId". reflexivity.
  - rewrite !scannerWebhookData_obj. unfold member.
    same_lookup H "documentUrl". same_lookup H "documentType".
    same_lookup H "filename". same_lookup H "scannedBy".
    same_lookup H "scannedAt". same_lookup H "deviceId".
    same_lookup H "resolution". reflexivity.
  - rewrite !externalWebhookData_obj. unfold member.
    same_lookup H "source". same_lookup H "documentUrl".
    same_lookup H "documentType". same_lookup H "filename".
    same_lookup H "externalId". same_lookup H "externalSystem".
    same_lookup H "createdAt". same_lookup H "createdBy".
    same_lookup H "additionalData". reflexivity.
Qed.

(** ** The route *)

Lemma processWebhook_returns
    (pipeline : webhookData -> Error + value) (cfg : config) (req : request)
    (log : list webhookData) :
  exists resp log', processWebhook pipeline cfg req log = (inr resp, log').
Proof.
  destruct (processWebhook_boundary pipeline cfg req log) as (resp & log' & H & _).
  eauto.
Qed.

(** X7: the route parses the body only when the content-type header is
    exactly [application/json]. With any other value, a charset parameter
    included, or with no such header, [JSON.parse] is not consulted and
    the raw body plays no part: the answer is processWebhook's on
    [req.body] as the earlier middleware left it. *)
Theorem post_type_without_json
    (pipeline : webhookData -> Error + value)
    (JSON_parse : string -> Error + value)
    (cfg : config) (req : request) (log : list webhookData) :
  headers req !! "content-type" <> Some "application/json" ->
  post_type pipeline JSON_parse cfg req log = processWebhook pipeline cfg req log.
Proof.
  intros Hct. unfold post_type, try_catch at 1, bind, ret.
  rewrite bool_decide_eq_false_2 by assumption.
  destruct (processWebhook_returns pipeline cfg req log) as (resp & log' & ->).
  reflexivity.
Qed.

Lemma post_type_without_json_witness :
  post_type accepting_pipeline sample_parse no_webhooks_config charset_request []
  = processWebhook accepting_pipeline no_webhooks_config charset_request [].
Proof.
  exact (post_type_without_json accepting_pipeline sample_parse
           no_webhooks_config charset_request []
           ltac:(vm_compute; discriminate)).
Defined.

(** X8: with the content-type [application/json] and a body that parses,
    the answer is processWebhook's on the parsed body, which replaces
    whatever [req.body] held before. *)
Theorem post_type_parsed
    (pipeline : webhookData -> Error + value)
    (JSON_parse : string -> Error + value)
    (cfg : config) (req : request) (parsed : value) (log : list webhookData) :
  headers req !! "content-type" = Some "application/json" ->
  JSON_parse (rawBody req) = inr parsed ->
  post_type pipeline JSON_parse cfg req log
  = processWebhook pipeline cfg (with_body req parsed) log
  /\ forall previous,
       post_type pipeline JSON_parse cfg (with_body req previous) log
       = post_type pipeline JSON_parse cfg req log.
Proof.
  intros Hct Hparse.
  assert (Hrun : forall b,
            post_type pipeline JSON_parse cfg (with_body req b) log
            = processWebhook pipeline cfg (with_body req parsed) log).
  { intros b. unfold post_type, try_catch at 1, bind, lift, ret.
    cbn [headers rawBody with_body].
    rewrite bool_decide_eq_true_2 by assumption. rewrite Hparse.
    change (with_body (with_body req b) parsed) with (with_body req parsed).
    destruct (processWebhook_returns pipeline cfg (with_body req parsed) log)
      as (resp & log' & ->).
    reflexivity. }
  split.
  - rewrite <- (Hrun (body req)). now destruct req.
  - intros previous. rewrite Hrun. rewrite <- (Hrun (body req)). now destruct req.
Qed.

Lemma post_type_parsed_witness :
  post_type accepting_pipeline sample_parse no_webhooks_config spaced_request []
  = processWebhook accepting_pipeline no_webhooks_config
      (with_body spaced_request spaced_parsed) []
  /\ forall previous,
       post_type accepting_pipeline sample_parse no_webhooks_config
         (with_body spaced_request previous) []
       = post_type accepting_pipeline sample_parse no_webhooks_config
           spaced_request [].
Proof.
  exact (post_type_parsed accepting_pipeline sample_parse no_webhooks_config
           spaced_request spaced_parsed [] eq_refl eq_refl).
Defined.

Lemma append_empty_r (s : string) : (s +:+ EmptyString) = s.
Proof.
  induction s as [|a s IH]; [reflexivity|].
  change (String a (s +:+ EmptyString) = String a s). now rewrite IH.
Qed.

Lemma append_assoc (s1 s2 s3 : string) : ((s1 +:+ s2) +:+ s3) = (s1 +:+ (s2 +:+ s3)).
Proof.
  induction s1 as [|a s1 IH]; [reflexivity|].
  change (String a ((s1 +:+ s2) +:+ s3) = String a (s1 +:+ (s2 +:+ s3))).
  now rewrite IH.
Qed.

Lemma concat_cons (c : string) (chunks : list string) :
  String.concat EmptyString (c :: chunks) = (c +:+ String.concat EmptyString chunks).
Proof.
  destruct chunks as [|c' chunks]; [|reflexivity].
  cbn [String.concat]. symmetry. apply append_empty_r.
Qed.

Lemma fold_left_append (chunks : list string) (acc : string) :
  fold_left String.append chunks acc = (acc +:+ String.concat EmptyString chunks).
Proof.
  revert acc. induction chunks as [|c chunks IH]; intros acc.
  - simpl. now rewrite append_empty_r.
  - cbn [fold_left]. rewrite IH, concat_cons. apply append_assoc.
Qed.

(** X9: rawBodyParser stores the concatenation of the chunks, so the way
    the stream was cut into chunks is invisible: two deliveries with the
    same concatenation give the same request and the same answer of the
    route. *)
Theorem rawBodyParser_chunking
    (pipeline : webhookData -> Error + value)
    (JSON_parse : string -> Error + value)
    (cfg : config) (req : request) (chunks1 chunks2 : list string)
    (log : list webhookData) :
  String.concat EmptyString chunks1 = String.concat EmptyString chunks2 ->
  rawBody (rawBodyParser chunks1 req) = String.concat EmptyString chunks1
  /\ rawBodyParser chunks1 req = rawBodyParser chunks2 req
  /\ webhook_route pipeline JSON_parse cfg chunks1 req log
     = webhook_route pipeline JSON_parse cfg chunks2 req log.
Proof.
  intros Hsame.
  assert (Hraw : forall chunks,
            rawBody (rawBodyParser chunks req) = String.concat EmptyString chunks).
  { intros chunks. unfold rawBodyParser. cbn [rawBody].
    now rewrite fold_left_append. }
  assert (Heq : rawBodyParser chunks1 req = rawBodyParser chunks2 req).
  { unfold rawBodyParser. f_equal. now rewrite !fold_left_append, Hsame. }
  split; [apply Hraw|]. split; [exact Heq|].
  unfold webhook_route. now rewrite Heq.
Qed.

Lemma rawBodyParser_chunking_witness :
  rawBody (rawBodyParser ["ab"; "c"] spaced_request)
  = String.concat EmptyString ["ab"; "c"]
  /\ rawBodyParser ["ab"; "c"] spaced_request
     = rawBodyParser ["a"; "bc"] spaced_request
  /\ webhook_route accepting_pipeline sample_parse no_webhooks_config
       ["ab"; "c"] spaced_request []
     = webhook_route accepting_pipeline sample_parse no_webhooks_config
         ["a"; "bc"] spaced_request [].
Proof.
  exact (rawBodyParser_chunking accepting_pipeline sample_parse
           no_webhooks_config spaced_request ["ab"; "c"] ["a"; "bc"] [] eq_refl).
Defined.

(** X10: the types that GET /status announces as supported are exactly the
    types for which the switch of processWebhook runs a handler: a type is
    in [supportedWebhooks] if and only if dispatch never answers it with
    [Unsupported webhook type]. *)
Theorem status_route_lists_dispatched_types (now webhookType : string) :
  In (VStr webhookType)
     (elements_of (member (payload (status_route now)) "supportedWebhooks"))
  <-> (forall pipeline data log,
         fst (dispatch pipeline webhookType data log)
         <> inr (error_response 400
                   ("Unsupported webhook type: " +:+ webhookType))).
Proof.
  cbn [status_route payload member obj_lookup String.eqb Ascii.eqb Bool.eqb
       default elements_of In].
  split.
  - intros Hin pipeline data log.
    assert (Hs : exists prefix norm, supported webhookType prefix norm).
    { destruct Hin as [[= <-]|[[= <-]|[[= <-]|[]]]]; eauto using supported. }
    destruct Hs as (prefix & norm & Hs).
    rewrite (dispatch_supported pipeline _ _ _ data log Hs).
    destruct (norm data log) as [[e|event] log']; cbn [fst]; [discriminate|].
    destruct (pipeline event); discriminate.
  - intros Hnever.
    destruct (supported_or_not webhookType) as [Hu|(prefix & norm & Hs)].
    + exfalso. apply (Hnever accepting_pipeline VNull []).
      now rewrite dispatch_unsupported.
    + destruct Hs; simpl; tauto.
Qed.

(** * Properties of the document service *)

Ltac io_unfold :=
  unfold processWebhookDocument, uploadDocument, parseDocument, processOcr,
    io_try, io_bind, io_ret, io_throw, io_lift, request_io, uuidv4, Date_now,
    Date_toISOString.

Ltac io_reduce :=
  cbn beta iota zeta
      delta [uuids reads io buffer originalname mimetype file_size fst snd
             member obj_lookup String.eqb Ascii.eqb Bool.eqb from_option id
             to_String].

(** Case analysis on the next test or outside answer that is in plain sight. *)
Ltac io_case :=
  io_reduce;
  match goal with
  | |- context [if ?c then _ else _] =>
      lazymatch c with
      | context [match _ with _ => _ end] => fail
      | _ => destruct c eqn:?
      end
  | |- context [match ?x with inl _ => _ | inr _ => _ end] =>
      lazymatch x with
      | context [match _ with _ => _ end] => fail
      | _ => destruct x eqn:?
      end
  end.

Lemma fetch_failure_stops_processing_run
    (w : world) (svc : DocumentService) (event : webhookData) (err : Error)
    (r : run) :
  truthy (documentUrl event) = true ->
  axios_result w (documentUrl event) = inl err ->
  fst (processWebhookDocument w svc event r)
  = inl (mkError ("Failed to process webhook document: " +:+ message err)).
Proof.
  intros Hurl Hfetch. io_unfold. rewrite Hurl, Hfetch. reflexivity.
Qed.

(** X11: when the event has a document URL and the fetch fails, nothing
    else happens: no identifier is drawn, nothing is stored, and the
    failure comes back under the prefix of processWebhookDocument. *)
Theorem fetch_failure_stops_processing
    (w : world) (svc : DocumentService) (event : webhookData) (err : Error)
    (r : run) :
  truthy (documentUrl event) = true ->
  axios_result w (documentUrl event) = inl err ->
  processWebhookDocument w svc event r
  = (inl (mkError ("Failed to process webhook document: " +:+ message err)),
     {| uuids := uuids r; reads := reads r;
        io := io r ++ [AxiosGet (documentUrl event)] |}).
Proof.
  intros Hurl Hfetch. io_unfold. rewrite Hurl, Hfetch. reflexivity.
Qed.

Lemma fetch_failure_stops_processing_witness :
  processWebhookDocument offline_world (DocumentService_new ∅)
    sample_email_event fresh_run
  = (inl (mkError "Failed to process webhook document: connect ECONNREFUSED"),
     {| uuids := 0; reads := 0; io := [AxiosGet (VStr "http://x/f.pdf")] |}).
Proof.
  exact (fetch_failure_stops_processing offline_world (DocumentService_new ∅)
           sample_email_event (mkError "connect ECONNREFUSED") fresh_run
           eq_refl eq_refl).
Defined.

(** X12: an event without a document URL (undefined, as for an email
    without attachments, or any falsy value) is never fetched, and what
    is then stored has no content: every write and every S3 upload of the
    run carries [undefined] as its data. *)
Theorem no_url_no_document
    (w : world) (svc : DocumentService) (event : webhookData) (r : run) :
  truthy (documentUrl event) = false ->
  exists requests,
    io (snd (processWebhookDocument w svc event r)) = io r ++ requests
    /\ Forall carries_no_document requests.
Proof.
  intros Hurl. io_unfold. rewrite Hurl.
  repeat io_case; io_reduce;
    first [ exists []; split; [now rewrite app_nil_r | constructor]
          | eexists; split;
            [rewrite <- ?app_assoc; reflexivity
            | repeat constructor; cbn [buffer]; reflexivity] ].
Qed.

Lemma no_url_no_document_witness :
  exists requests,
    io (snd (processWebhookDocument kind_world (DocumentService_new ∅)
               bare_email_event fresh_run))
    = io fresh_run ++ requests
    /\ Forall carries_no_document requests.
Proof.
  exact (no_url_no_document kind_world (DocumentService_new ∅)
           bare_email_event fresh_run eq_refl).
Defined.

Lemma is_string_true (v : value) (text : string) :
  is_string v text = true <-> v = VStr text.
Proof.
  destruct v; simpl; try (split; [discriminate | intros [=]]).
  rewrite String.eqb_eq. split; [now intros -> | now intros [= ->]].
Qed.

(** X13: the [source] of the event chooses the processing. A result of
    processWebhookDocument holds an OCR result exactly when the source is
    the string [scanner], with the options [{ source: 'scanner' }];
    otherwise it holds a parse, with the options [{ source: 'email' }]
    when the source is the string [email] and the default [{}] for every
    other source. Either way the processing is of the document just
    uploaded, whose identifier is also the result's [documentId], and the
    result repeats the event's source. *)
Theorem processing_branch_by_source
    (w : world) (svc : DocumentService) (event : webhookData) (r r' : run)
    (result : webhook_result) :
  processWebhookDocument w svc event r = (inr result, r') ->
  success result = true
  /\ result_source result = source event
  /\ result_documentId result = VStr (uuid_at w (uuids r))
  /\ match processingResult result with
     | OcrDocument o =>
         source event = VStr "scanner"
         /\ ocr_documentId o = VStr (uuid_at w (uuids r))
         /\ ocr_options o = VObj [("source", VStr "scanner")]
     | ParsedDocument parsed =>
         source event <> VStr "scanner"
         /\ member parsed "documentId" = VStr (uuid_at w (uuids r))
         /\ member parsed "options"
            = (if is_string (source event) "email"
               then VObj [("source", VStr "email")]
               else VObj [])
     end.
Proof.
  io_unfold. repeat io_case; io_reduce; intros [= <- <-];
    cbn [success result_source result_documentId processingResult
         ocr_documentId ocr_options];
    repeat match goal with
           | H : is_string _ _ = true |- _ => apply is_string_true in H
           end;
    repeat split; try reflexivity; try assumption;
    try (intros Hsc; rewrite Hsc in *; discriminate).
Qed.

Lemma sample_run_result :
  processWebhookDocument kind_world (DocumentService_new ∅)
    sample_email_event fresh_run
  = (inr sample_result, sample_final_run).
Proof. vm_compute. reflexivity. Qed.

Lemma processing_branch_by_source_witness :
  success sample_result = true
  /\ result_source sample_result = source sample_email_event
  /\ result_documentId sample_result = VStr (uuid_at kind_world (uuids fresh_run))
  /\ match processingResult sample_result with
     | OcrDocument o =>
         source sample_email_event = VStr "scanner"
         /\ ocr_documentId o = VStr (uuid_at kind_world (uuids fresh_run))
         /\ ocr_options o = VObj [("source", VStr "scanner")]
     | ParsedDocument parsed =>
         source sample_email_event <> VStr "scanner"
         /\ member parsed "documentId"
            = VStr (uuid_at kind_world (uuids fresh_run))
         /\ member parsed "options"
            = (if is_string (source sample_email_event) "email"
               then VObj [("source", VStr "email")]
               else VObj [])
     end.
Proof.
  exact (processing_branch_by_source kind_world (DocumentService_new ∅)
           sample_email_event fresh_run sample_final_run sample_result
           sample_run_result).
Defined.

(** X14: with local storage, a document that was fetched is written once,
    unchanged, after the upload directory was made: when the name of the
    file converts to a string, the requests of the run are the fetch of
    the event's URL, the mkdir, and the write of the fetched bytes to
    [path.join(uploadDir, <uuid>-<name>)], where the name is
    [metadata.filename] or, when that is falsy,
    [<source>-document-<Date.now()>.pdf]. When the name does not convert
    (ToString throws), the run stops after the fetch and nothing is made
    or written. *)
Theorem local_storage_writes_fetched_bytes
    (w : world) (svc : DocumentService) (event : webhookData) (r : run)
    (data : list byte) :
  storageType svc = "local" ->
  truthy (documentUrl event) = true ->
  axios_result w (documentUrl event) = inr data ->
  mkdir_result w (uploadDir svc) = inr tt ->
  match stored_name w event r with
  | inr name =>
      io (snd (processWebhookDocument w svc event r))
      = io r ++ [AxiosGet (documentUrl event);
                 FsMkdir (uploadDir svc);
                 FsWriteFile
                   (path_join w (uploadDir svc)
                      (uuid_at w (uuids r) +:+ "-" +:+ name))
                   (Some data)]
  | inl e =>
      io (snd (processWebhookDocument w svc event r))
      = io r ++ [AxiosGet (documentUrl event)]
      /\ exists m,
           fst (processWebhookDocument w svc event r)
           = inl (mkError ("Failed to process webhook document: " +:+ m))
  end.
Proof.
  intros Hlocal Hurl Hfetch Hmkdir. io_unfold. unfold stored_name.
  rewrite Hlocal, Hurl, Hfetch. cbn [String.eqb Ascii.eqb Bool.eqb].
  destruct (truthy (opt_get (metadata event) "filename")) eqn:Hname; io_reduce.
  - destruct (to_String (opt_get (metadata event) "filename")) as [e|name];
      io_reduce; [split; [reflexivity | eexists; reflexivity]|].
    rewrite Hmkdir.
    repeat io_case; io_reduce; rewrite <- ?app_assoc; reflexivity.
  - destruct (to_String (source event)) as [e|shown];
      io_reduce; [split; [reflexivity | eexists; reflexivity]|].
    rewrite Hmkdir.
    repeat io_case; io_reduce; rewrite <- ?app_assoc; reflexivity.
Qed.

Lemma local_storage_writes_fetched_bytes_witness :
  io sample_final_run
  = io fresh_run
    ++ [AxiosGet (VStr "http://x/f.pdf");
        FsMkdir "./uploads";
        FsWriteFile
          (path_join kind_world "./uploads"
             (uuid_at kind_world (uuids fresh_run) +:+ "-" +:+ "f.pdf"))
          (Some (Buffer_from "pdf"))].
Proof.
  exact (local_storage_writes_fetched_bytes kind_world (DocumentService_new ∅)
           sample_email_event fresh_run (Buffer_from "pdf")
           eq_refl eq_refl eq_refl eq_refl).
Defined.

(** X15: with S3 storage, a document that was fetched is uploaded once,
    unchanged, into the configured bucket under the key [<uuid>-<name>],
    with the event's documentType as content type and [application/pdf]
    when that is falsy, provided the name of the file converts to a
    string; when it does not, the run stops after the fetch. The local
    file system is not touched. *)
Theorem s3_storage_uploads_fetched_bytes
    (w : world) (svc : DocumentService) (event : webhookData) (r : run)
    (data : list byte) :
  storageType svc = "s3" ->
  truthy (documentUrl event) = true ->
  axios_result w (documentUrl event) = inr data ->
  match stored_name w event r with
  | inr name =>
      io (snd (processWebhookDocument w svc event r))
      = io r ++ [AxiosGet (documentUrl event);
                 S3Upload (s3Bucket svc)
                   (uuid_at w (uuids r) +:+ "-" +:+ name)
                   (Some data)
                   (js_or (documentType event) (VStr "application/pdf"))]
  | inl e =>
      io (snd (processWebhookDocument w svc event r))
      = io r ++ [AxiosGet (documentUrl event)]
      /\ exists m,
           fst (processWebhookDocument w svc event r)
           = inl (mkError ("Failed to process webhook document: " +:+ m))
  end.
Proof.
  intros Hs3 Hurl Hfetch. io_unfold. unfold stored_name.
  rewrite Hs3, Hurl, Hfetch. cbn [String.eqb Ascii.eqb Bool.eqb].
  destruct (truthy (opt_get (metadata event) "filename")) eqn:Hname; io_reduce.
  - destruct (to_String (opt_get (metadata event) "filename")) as [e|name];
      io_reduce; [split; [reflexivity | eexists; reflexivity]|].
    repeat io_case; io_reduce; rewrite <- ?app_assoc; reflexivity.
  - destruct (to_String (source event)) as [e|shown];
      io_reduce; [split; [reflexivity | eexists; reflexivity]|].
    repeat io_case; io_reduce; rewrite <- ?app_assoc; reflexivity.
Qed.

Lemma s3_storage_uploads_fetched_bytes_witness :
  io (snd (processWebhookDocument kind_world
             (DocumentService_new {[ "STORAGE_TYPE" := "s3"; "S3_BUCKET" := "docs" ]})
             sample_email_event fresh_run))
  = io fresh_run
    ++ [AxiosGet (VStr "http://x/f.pdf");
        S3Upload (Some "docs")
          (uuid_at kind_world (uuids fresh_run) +:+ "-" +:+ "f.pdf")
          (Some (Buffer_from "pdf"))
          (js_or (documentType sample_email_event) (VStr "application/pdf"))].
Proof.
  exact (s3_storage_uploads_fetched_bytes kind_world
           (DocumentService_new {[ "STORAGE_TYPE" := "s3"; "S3_BUCKET" := "docs" ]})
           sample_email_event fresh_run (Buffer_from "pdf")
           eq_refl eq_refl eq_refl).
Defined.

(** X16: a storage type that is neither [local] nor [s3] (any other value
    of STORAGE_TYPE, [S3] in capitals included) makes uploadDocument store
    nothing: no request leaves the service for any file. When the file's
    name converts to a string, the caller still receives a document with a
    fresh identifier and the status [active]; when it does not, the
    identifier already drawn is lost with the failure
    [Failed to upload document: ...]. *)
Theorem unknown_storage_stores_nothing
    (w : world) (svc : DocumentService) (file : upload_file) (meta : value)
    (r : run) :
  storageType svc <> "local" ->
  storageType svc <> "s3" ->
  io (snd (uploadDocument w svc file meta r)) = io r
  /\ match to_String (originalname file) with
     | inr name =>
         exists result,
           uploadDocument w svc file meta r
           = (inr result,
              {| uuids := S (uuids r); reads := S (S (reads r)); io := io r |})
           /\ member result "id" = VStr (uuid_at w (uuids r))
           /\ member result "status" = VStr "active"
     | inl e =>
         uploadDocument w svc file meta r
         = (inl (mkError ("Failed to upload document: " +:+ message e)),
            {| uuids := S (uuids r); reads := reads r; io := io r |})
     end.
Proof.
  intros Hlocal Hs3. apply String.eqb_neq in Hlocal, Hs3.
  io_unfold. rewrite Hlocal, Hs3. io_reduce.
  destruct (to_String (originalname file)) as [e|name]; io_reduce.
  - split; reflexivity.
  - split; [reflexivity|]. eexists. split; [reflexivity|]. split; reflexivity.
Qed.

Lemma capital_S3_is_unknown :
  storageType (DocumentService_new {[ "STORAGE_TYPE" := "S3" ]}) <> "local"
  /\ storageType (DocumentService_new {[ "STORAGE_TYPE" := "S3" ]}) <> "s3".
Proof. split; vm_compute; discriminate. Qed.

Lemma unknown_storage_stores_nothing_witness :
  io (snd (uploadDocument kind_world
             (DocumentService_new {[ "STORAGE_TYPE" := "S3" ]})
             sample_file VUndefined fresh_run)) = io fresh_run
  /\ exists result,
       uploadDocument kind_world (DocumentService_new {[ "STORAGE_TYPE" := "S3" ]})
         sample_file VUndefined fresh_run
       = (inr result,
          {| uuids := S (uuids fresh_run); reads := S (S (reads fresh_run));
             io := io fresh_run |})
       /\ member result "id" = VStr (uuid_at kind_world (uuids fresh_run))
       /\ member result "status" = VStr "active".
Proof.
  exact (unknown_storage_stores_nothing kind_world
           (DocumentService_new {[ "STORAGE_TYPE" := "S3" ]})
           sample_file VUndefined fresh_run
           (proj1 capital_S3_is_unknown) (proj2 capital_S3_is_unknown)).
Defined.

Lemma obj_lookup_set_eq (fields : list (string * value)) (k : string) (v : value) :
  obj_lookup (obj_set fields k v) k = Some v.
Proof.
  induction fields as [|[k' v'] rest IH]; simpl.
  - now rewrite String.eqb_refl.
  - destruct (String.eqb k' k) eqn:E; simpl; now rewrite E.
Qed.

Lemma obj_lookup_set_ne (fields : list (string * value)) (k k' : string) (v : value) :
  k' <> k -> obj_lookup (obj_set fields k v) k' = obj_lookup fields k'.
Proof.
  intros Hne. induction fields as [|[k0 v0] rest IH]; simpl.
  - apply String.eqb_neq in Hne. rewrite String.eqb_sym in Hne. now rewrite Hne.
  - destruct (String.eqb k0 k) eqn:E; simpl.
    + apply String.eqb_eq in E. subst k0.
      apply not_eq_sym, String.eqb_neq in Hne. now rewrite Hne.
    + now rewrite IH.
Qed.

(** X17: in the document uploadDocument returns, [metadata.originalName]
    is always the file's name, also when the caller's metadata had an
    [originalName] of its own, and every other property of the caller's
    metadata is kept as it was; [name], [type] and [size] are the file's. *)
Theorem upload_metadata_keeps_caller_fields
    (w : world) (svc : DocumentService) (file : upload_file)
    (fields : list (string * value)) (r r' : run) (result : value) :
  uploadDocument w svc file (VObj fields) r = (inr result, r') ->
  member (member result "metadata") "originalName" = originalname file
  /\ (forall k, k <> "originalName" ->
                member (member result "metadata") k = member (VObj fields) k)
  /\ member result "name" = originalname file
  /\ member result "type" = mimetype file
  /\ member result "size" = VNum (file_size file).
Proof.
  io_unfold. repeat io_case; io_reduce; intros [= <- <-];
    cbn -[obj_set obj_lookup];
    cbn [obj_lookup String.eqb Ascii.eqb Bool.eqb from_option id member];
    (split; [now rewrite obj_lookup_set_eq|]);
    (split; [intros k Hk; now rewrite obj_lookup_set_ne|]);
    repeat split.
Qed.

Lemma sample_upload_result :
  uploadDocument kind_world (DocumentService_new ∅) sample_file
    (VObj sample_upload_fields) fresh_run
  = (inr sample_upload, sample_upload_run).
Proof. vm_compute. reflexivity. Qed.

Lemma upload_metadata_keeps_caller_fields_witness :
  member (member sample_upload "metadata") "originalName" = originalname sample_file
  /\ (forall k, k <> "originalName" ->
                member (member sample_upload "metadata") k
                = member (VObj sample_upload_fields) k)
  /\ member sample_upload "name" = originalname sample_file
  /\ member sample_upload "type" = mimetype sample_file
  /\ member sample_upload "size" = VNum (file_size sample_file).
Proof.
  exact (upload_metadata_keeps_caller_fields kind_world (DocumentService_new ∅)
           sample_file sample_upload_fields fresh_run sample_upload_run
           sample_upload sample_upload_result).
Defined.

(** ToString on known values. *)
Example to_String_known :
  to_String (VArr [VNum 1; VNull; VArr [VStr "a"; VUndefined]; VObj []; VBool true])
  = inr "1,,a,,[object Object],true"
  /\ to_String (VObj [("a", VNum 1)]) = inr "[object Object]"
  /\ to_String (VNum (10 ^ 21)) = inr "1e+21"
  /\ to_String (VDec 5 (-1)) = inr "0.5"
  /\ to_String (VObj [("toString", VNum 1)]) = inl TypeError_primitive
  /\ to_String (VArr [VNum 1; VObj [("toString", VNull)]]) = inl TypeError_primitive.
Proof. vm_compute. repeat split. Qed.

(** ToString fails in one way only. *)
Lemma to_String_error (v : value) :
  forall e, to_String v = inl e -> e = TypeError_primitive.
Proof.
  revert v. fix IH 1. intros [| | b | n | m d | s | l | fields] e; cbn [to_String];
    try discriminate.
  - match goal with |- match ?f l with _ => _ end = _ -> _ => set (each := f) end.
    assert (Hl : forall e', each l = inl e' -> e' = TypeError_primitive).
    { induction l as [|x rest IHl]; intros e'; cbn; [discriminate|].
      destruct (nullish x).
      - destruct (each rest) as [e2|texts] eqn:E; [|discriminate].
        intros [= <-]. now apply IHl.
      - destruct (to_String x) as [e1|s] eqn:Ex.
        + intros [= <-]. exact (IH x e1 Ex).
        + destruct (each rest) as [e2|texts] eqn:E; [|discriminate].
          intros [= <-]. now apply IHl. }
    destruct (each l) as [e'|texts]; [|discriminate].
    intros [= <-]. now apply Hl.
  - destruct (obj_lookup fields "toString"); [|discriminate].
    now intros [= <-].
Qed.

(** X18: every failure of processWebhookDocument is a failed fetch of the
    event's URL, a failed storage request of the upload, or a name of the
    file that does not convert to a string. Its message is
    [Failed to process webhook document: ] followed by the message of
    [axios.get]; or by [Failed to upload document: ] and the message of
    [fs.mkdir], [fs.writeFile] or the S3 upload; or by the TypeError of
    ToString, thrown for the event's source when there is no
    [metadata.filename] and, under [Failed to upload document: ], for
    [metadata.filename] when there is one. Parsing, OCR and the clock
    never fail. *)
Theorem processWebhookDocument_failures
    (w : world) (svc : DocumentService) (event : webhookData) (r r' : run)
    (e : Error) :
  processWebhookDocument w svc event r = (inl e, r') ->
  (exists err,
     truthy (documentUrl event) = true
     /\ axios_result w (documentUrl event) = inl err
     /\ message e = "Failed to process webhook document: " +:+ message err)
  \/ (exists err,
        message e
        = "Failed to process webhook document: "
          +:+ ("Failed to upload document: " +:+ message err)
        /\ (mkdir_result w (uploadDir svc) = inl err
            \/ (exists path data, writeFile_result w path data = inl err)
            \/ (exists key data type,
                  s3_result w (s3Bucket svc) key data type = inl err)))
  \/ (stored_name w event r = inl TypeError_primitive
      /\ message e
         = "Failed to process webhook document: "
           +:+ (if truthy (opt_get (metadata event) "filename")
                then "Failed to upload document: " +:+ message TypeError_primitive
                else message TypeError_primitive)).
Proof.
  io_unfold. repeat io_case; io_reduce; intros [= <- <-]; cbn [message];
    unfold stored_name;
    repeat match goal with
           | H : to_String _ = inl ?e |- _ =>
               pose proof (to_String_error _ _ H); subst e
           end;
    repeat match goal with
           | H : truthy (opt_get _ _) = _ |- _ => rewrite H
           | H : to_String _ = _ |- _ => rewrite H
           end;
    first [ left; eexists; repeat split; reflexivity
          | right; right; split; reflexivity
          | right; left; eexists; split; [reflexivity|]; solve [eauto 10] ].
Qed.

Lemma processWebhookDocument_failures_witness :
  (exists err,
     truthy (documentUrl sample_email_event) = true
     /\ axios_result offline_world (documentUrl sample_email_event) = inl err
     /\ message (mkError "Failed to process webhook document: connect ECONNREFUSED")
        = "Failed to process webhook document: " +:+ message err)
  \/ (exists err,
        message (mkError "Failed to process webhook document: connect ECONNREFUSED")
        = "Failed to process webhook document: "
          +:+ ("Failed to upload document: " +:+ message err)
        /\ (mkdir_result offline_world (uploadDir (DocumentService_new ∅)) = inl err
            \/ (exists path data, writeFile_result offline_world path data = inl err)
            \/ (exists key data type,
                  s3_result offline_world (s3Bucket (DocumentService_new ∅))
                    key data type = inl err)))
  \/ (stored_name offline_world sample_email_event fresh_run
      = inl TypeError_primitive
      /\ message (mkError "Failed to process webhook document: connect ECONNREFUSED")
         = "Failed to process webhook document: "
           +:+ (if truthy (opt_get (metadata sample_email_event) "filename")
                then "Failed to upload document: " +:+ message TypeError_primitive
                else message TypeError_primitive)).
Proof.
  exact (processWebhookDocument_failures offline_world (DocumentService_new ∅)
           sample_email_event fresh_run
           {| uuids := 0; reads := 0; io := [AxiosGet (VStr "http://x/f.pdf")] |}
           (mkError "Failed to process webhook document: connect ECONNREFUSED")
           eq_refl).
Defined.

(** A file name that does not convert: the document is fetched, an
    identifier is drawn, and the upload fails before any storage request. *)
Example unprintable_name_stops_upload :
  processWebhookDocument kind_world (DocumentService_new ∅)
    unprintable_name_event fresh_run
  = (inl (mkError
            ("Failed to process webhook document: "
             +:+ ("Failed to upload document: "
                  +:+ "Cannot convert object to primitive value"))),
     {| uuids := 1; reads := 0; io := [AxiosGet (VStr "http://x/f.pdf")] |}).
Proof. vm_compute. reflexivity. Qed.

(** A source that does not convert, with no file name given: the failure
    comes before uploadDocument is called. *)
Example unprintable_source_stops_upload :
  processWebhookDocument kind_world (DocumentService_new ∅)
    unprintable_source_event fresh_run
  = (inl (mkError
            ("Failed to process webhook document: "
             +:+ "Cannot convert object to primitive value")),
     {| uuids := 0; reads := 0; io := [AxiosGet (VStr "http://x/f.pdf")] |}).
Proof. vm_compute. reflexivity. Qed.

(** ** The handlers over the service *)

(** X19: end to end, a failed fetch reaches the caller of the webhook as a
    500 whose message nests the three prefixes: the handler's, then
    [Failed to process webhook document: ], then the message of
    [axios.get]. The event was handed over once and nothing was stored. *)
Theorem fetch_failure_is_500
    (w : world) (svc : DocumentService) (render : webhook_result -> value)
    (r : run) (cfg : config) (req : request)
    (prefix : string) (norm : value -> M webhookData)
    (event : webhookData) (err : Error) (log : list webhookData) :
  signature_rejected cfg req = false ->
  supported (params_type req) prefix norm ->
  norm (body req) log = (inr event, log) ->
  truthy (documentUrl event) = true ->
  axios_result w (documentUrl event) = inl err ->
  processWebhook (service_pipeline w svc render r) cfg req log
  = (inr (error_response 500
            (prefix +:+ ("Failed to process webhook document: " +:+ message err))),
     log ++ [event]).
Proof.
  intros Hgate Hs Hnorm Hurl Hfetch.
  rewrite processWebhook_run, Hgate.
  rewrite (dispatch_supported _ _ _ _ (body req) log Hs), Hnorm.
  unfold service_pipeline.
  rewrite (fetch_failure_stops_processing_run w svc event err r Hurl Hfetch).
  reflexivity.
Qed.

(** X20: the external-system handler lets the caller choose the
    processing: a body that declares the source [scanner] becomes an event
    that processWebhookDocument sends through OCR, like the events of the
    scanner handler, and one that declares [email] is parsed with the
    email options. *)
Theorem external_source_selects_processing
    (w : world) (svc : DocumentService) (fields : list (string * value))
    (log : list webhookData) (r : run) :
  exists event,
    externalWebhookData (VObj fields) log = (inr event, log)
    /\ (obj_lookup fields "source" = Some (VStr "scanner") ->
        forall result r',
          processWebhookDocument w svc event r = (inr result, r') ->
          exists o,
            processingResult result = OcrDocument o
            /\ ocr_options o = VObj [("source", VStr "scanner")])
    /\ (obj_lookup fields "source" = Some (VStr "email") ->
        forall result r',
          processWebhookDocument w svc event r = (inr result, r') ->
          exists parsed,
            processingResult result = ParsedDocument parsed
            /\ member parsed "options" = VObj [("source", VStr "email")]).
Proof.
  eexists. split; [apply externalWebhookData_obj|].
  split; intros Hsrc result r'; io_unfold;
    cbn [source documentUrl documentType metadata];
    rewrite (member_obj _ _ _ Hsrc);
    cbn [js_or truthy is_string String.eqb Ascii.eqb Bool.eqb negb];
    repeat io_case; io_reduce; intros [= <- <-];
    cbn [processingResult]; eexists; split; reflexivity.
Qed.

(** X21: with config.js as it stands, which defines no [webhooks],
    no request is ever refused for its signature, whatever the environment
    holds: the gate never rejects and the answer is never 401. *)
Theorem config_js_never_verifies
    (env : gmap string string) (pipeline : webhookData -> Error + value)
    (req : request) (log : list webhookData) :
  signature_rejected (config_js_webhooks env) req = false
  /\ exists resp log',
       processWebhook pipeline (config_js_webhooks env) req log = (inr resp, log')
       /\ (status resp = 200 \/ status resp = 400 \/ status resp = 500).
Proof.
  split; [reflexivity|].
  rewrite processWebhook_run.
  change (signature_rejected (config_js_webhooks env) req) with false.
  pose proof (dispatch_cases pipeline (params_type req) (body req) log) as Hd.
  destruct Hd; do 2 eexists; (split; [reflexivity|]); cbn; auto.
Qed.

Lemma fetch_failure_is_500_witness :
  processWebhook
    (service_pipeline offline_world (DocumentService_new ∅) render_summary fresh_run)
    no_webhooks_config (unsigned_request "email" (VObj sample_email_fields)) []
  = (inr (error_response 500
            ("Failed to handle email webhook: "
             +:+ ("Failed to process webhook document: "
                  +:+ message (mkError "connect ECONNREFUSED")))),
     [] ++ [sample_email_event]).
Proof.
  exact (fetch_failure_is_500 offline_world (DocumentService_new ∅)
           render_summary fresh_run no_webhooks_config
           (unsigned_request "email" (VObj sample_email_fields))
           _ _ sample_email_event (mkError "connect ECONNREFUSED") []
           eq_refl SupportedEmail eq_refl eq_refl eq_refl).
Defined.

(** ** The upload route *)


(** A metadata field that is not JSON: 500, and the run is untouched. *)
Example upload_route_bad_metadata :
  upload_route kind_world (DocumentService_new ∅) sample_parse
    bad_metadata_request fresh_run
  = (inr (error_response 500 "Unexpected token"), fresh_run).
Proof. reflexivity. Qed.

(** A metadata field that is an object with a [toString] property of its
    own (a multipart field named [metadata[toString]]): ToString throws
    before the parser is reached. *)
Example upload_route_unprintable_metadata :
  upload_route kind_world (DocumentService_new ∅) sample_parse
    {| file := Some sample_file;
       upload_body := VObj [("metadata", VObj [("toString", VStr "x")])] |}
    fresh_run
  = (inr (error_response 500 "Cannot convert object to primitive value"),
     fresh_run).
Proof. reflexivity. Qed.
